(** * Symbolic algebra example of the operator-overloading lesson

    A shallow embedding of the [Term] / [Expression] classes of
    [ch07dry/050OperatorsExample.ipynb.py] (the final versions of the
    classes, i.e. the second [class Term] / [class Expression] together
    with every [@extend] cell), and the properties the lesson's
    specification states about them.

    Python objects live in an explicit store; methods are computations in
    a state-and-exception monad over that store, so that sharing of lists
    and dictionaries between objects is visible.

    Scope of the model.  Values are [None], ints, floats, strings and
    references to list, tuple, dict, [Term] and [Expression] objects.
    Dictionaries map strings to ints and a [Term]'s coefficient is an int
    (the data model of the lesson: symbol -> integer exponent).  Wherever a
    run would leave that fragment (a float coefficient, a non-string
    dictionary key, ...) the computation yields [Unmodelled]: the model
    then says nothing about the run.  [Returns] and [Raises] are what
    Python does. *)

From Stdlib Require Import ZArith String DecimalString PrimFloat Lia.
From stdpp Require Import base option list strings.

(** ** Values, objects, store *)

(** A location is an index into the store. *)
Abbreviation loc := nat.

Inductive val : Type :=
| VNone
| VInt (z : Z)
| VFloat (f : float)
| VStr (s : string)
| VRef (l : loc).

(** Contents of a [dict]: insertion-ordered association list. *)
Definition dict := list (string * Z).

Inductive obj : Type :=
| OList (items : list val)
| OTuple (items : list val)
| ODict (entries : dict)
| OTerm (data : option loc) (coefficient : option Z)
| OExpression (terms : option loc).

(** The store: the objects allocated so far, in allocation order. *)
Abbreviation heap := (list obj).

Inductive exn : Type :=
| TypeError
| AttributeError
| IndexError
| KeyError
| NotImplementedError.

Inductive pytype : Type :=
| TNoneType | TInt | TFloat | TStr | TList | TTuple | TDict | TTerm | TExpression.

(** ** The monad of store-passing computations that may raise *)

Inductive outcome (A : Type) : Type :=
| Returns (a : A) (h : heap)
| Raises (e : exn) (h : heap)
| Unmodelled.
Arguments Returns {A} a h.
Arguments Raises {A} e h.
Arguments Unmodelled {A}.

Definition M (A : Type) : Type := heap -> outcome A.

Definition ret {A} (a : A) : M A := fun h => Returns a h.

Definition bind {A B} (c : M A) (k : A -> M B) : M B :=
  fun h =>
    match c h with
    | Returns a h' => k a h'
    | Raises e h' => Raises e h'
    | Unmodelled => Unmodelled
    end.

Definition raise {A} (e : exn) : M A := fun h => Raises e h.

Definition unmodelled {A} : M A := fun _ => Unmodelled.

Notation "'let*' x ':=' c 'in' k" := (bind c (fun x => k))
  (at level 10, x pattern, c at level 100, k at level 200).

(** ** Store primitives *)

Definition alloc (o : obj) : M loc :=
  fun h => Returns (length h) (h ++ [o]).

(** A reference always designates an object in a run of the program; a
    dangling one is outside the model. *)
Definition load (l : loc) : M obj :=
  fun h => match h !! l with
           | Some o => Returns o h
           | None => Unmodelled
           end.

Definition store (l : loc) (o : obj) : M unit :=
  fun h => Returns tt (<[l := o]> h).

(** ** Built-ins the classes rely on *)

(** [type(v)] *)
Definition type_of (v : val) : M pytype :=
  match v with
  | VNone => ret TNoneType
  | VInt _ => ret TInt
  | VFloat _ => ret TFloat
  | VStr _ => ret TStr
  | VRef l =>
      let* o := load l in
      ret match o with
          | OList _ => TList
          | OTuple _ => TTuple
          | ODict _ => TDict
          | OTerm _ _ => TTerm
          | OExpression _ => TExpression
          end
  end.

(** The characters of a string, each as a one-character string. *)
Fixpoint chars (s : string) : list val :=
  match s with
  | EmptyString => []
  | String c s' => VStr (String c EmptyString) :: chars s'
  end.

(** The elements an iteration over [v] yields ([iter(v)] followed by
    exhausting it).  Iterating a dict yields its keys.  Objects without
    [__iter__] raise [TypeError]. *)
Definition py_iter (v : val) : M (list val) :=
  match v with
  | VStr s => ret (chars s)
  | VRef l =>
      let* o := load l in
      match o with
      | OList items => ret items
      | OTuple items => ret items
      | ODict entries => ret (map (fun kv => VStr (fst kv)) entries)
      | OTerm _ _ | OExpression _ => raise TypeError
      end
  | VNone | VInt _ | VFloat _ => raise TypeError
  end.

(** [list(v)]: a new list object holding the elements of [v]. *)
Definition py_list (v : val) : M loc :=
  let* items := py_iter v in
  alloc (OList items).

(** Dictionary contents: [k in d], [d[k]] and [d[k] = v]. *)
Fixpoint dict_get (k : string) (d : dict) : option Z :=
  match d with
  | [] => None
  | (k', v) :: d' => if String.eqb k k' then Some v else dict_get k d'
  end.

Definition dict_contains (k : string) (d : dict) : bool :=
  match dict_get k d with Some _ => true | None => false end.

(** Assignment keeps the position of a key already present and appends a
    new key at the end (insertion order). *)
Fixpoint dict_set (k : string) (v : Z) (d : dict) : dict :=
  match d with
  | [] => [(k, v)]
  | (k', v') :: d' =>
      if String.eqb k k' then (k, v) :: d' else (k', v') :: dict_set k v d'
  end.

(** [{symbol: exponent for symbol, exponent in pairs}] over the fragment:
    keys must be strings and values ints. *)
Fixpoint dict_comprehension (pairs : list (val * val)) (acc : dict) : M dict :=
  match pairs with
  | [] => ret acc
  | (VStr symbol, VInt exponent) :: rest =>
      dict_comprehension rest (dict_set symbol exponent acc)
  | _ :: _ => unmodelled
  end.

(** [zip(a, b)] stops at the shorter of its two arguments. *)
Fixpoint py_zip (a b : list val) : list (val * val) :=
  match a, b with
  | x :: a', y :: b' => (x, y) :: py_zip a' b'
  | _, _ => []
  end.

(** Attribute reads [v.data], [v.coefficient], [v.terms].  Only [Term]
    objects have [data] and [coefficient], only [Expression] objects have
    [terms]; an attribute not assigned yet is missing. *)
Definition get_data (v : val) : M loc :=
  match v with
  | VRef l =>
      let* o := load l in
      match o with
      | OTerm (Some data) _ => ret data
      | _ => raise AttributeError
      end
  | _ => raise AttributeError
  end.

Definition get_coefficient (v : val) : M Z :=
  match v with
  | VRef l =>
      let* o := load l in
      match o with
      | OTerm _ (Some coefficient) => ret coefficient
      | _ => raise AttributeError
      end
  | _ => raise AttributeError
  end.

Definition get_terms (v : val) : M loc :=
  match v with
  | VRef l =>
      let* o := load l in
      match o with
      | OExpression (Some terms) => ret terms
      | _ => raise AttributeError
      end
  | _ => raise AttributeError
  end.

(** Attribute writes [self.data = d], [self.coefficient = c],
    [self.terms = t] on the instance at [self]. *)
Definition set_data (self : loc) (d : loc) : M unit :=
  let* o := load self in
  match o with
  | OTerm _ coefficient => store self (OTerm (Some d) coefficient)
  | _ => unmodelled
  end.

Definition set_coefficient (self : loc) (c : Z) : M unit :=
  let* o := load self in
  match o with
  | OTerm data _ => store self (OTerm data (Some c))
  | _ => unmodelled
  end.

Definition set_terms (self : loc) (t : loc) : M unit :=
  let* o := load self in
  match o with
  | OExpression _ => store self (OExpression (Some t))
  | _ => unmodelled
  end.

(** Contents of the dict object at [l]. *)
Definition load_dict (l : loc) : M dict :=
  let* o := load l in
  match o with
  | ODict entries => ret entries
  | _ => unmodelled
  end.

(** Contents of the list object at [l]. *)
Definition load_list (l : loc) : M (list val) :=
  let* o := load l in
  match o with
  | OList items => ret items
  | _ => unmodelled
  end.

(** [str(n)] for an int. *)
Definition str_int (z : Z) : string := NilZero.string_of_int (Z.to_int z).

(** An argument that the fragment requires to be an int. *)
Definition as_int (v : val) : M Z :=
  match v with
  | VInt z => ret z
  | _ => unmodelled
  end.

(** An argument that the fragment requires to be a string. *)
Definition as_str (v : val) : M string :=
  match v with
  | VStr s => ret s
  | _ => unmodelled
  end.

(** An optional positional argument: its default when it is not passed. *)
Definition int_or_default (default : Z) (v : option val) : M Z :=
  match v with
  | None => ret default
  | Some v => as_int v
  end.

(** ** class Expression *)

Module Expression.

(** [Expression(terms=[])]: a new instance, then [__init__], that is
    [self.terms = list(terms)].  Without an argument [terms] is the
    default empty list, whose copy is a new empty list. *)
Definition __init__ (args : list val) : M val :=
  let* self := alloc (OExpression None) in
  match args with
  | [] =>
      let* l := alloc (OList []) in
      let* _ := set_terms self l in
      ret (VRef self)
  | [terms] =>
      let* l := py_list terms in
      let* _ := set_terms self l in
      ret (VRef self)
  | _ => raise TypeError
  end.

(** [result.terms.append(another)] *)
Definition append_term (result another : val) : M unit :=
  let* l := get_terms result in
  let* items := load_list l in
  store l (OList (items ++ [another])).

(** [result.terms += another.terms]: the list [result.terms] is
    extended in place with the elements of [another.terms] and assigned
    back to the attribute. *)
Definition extend_terms (result another : val) : M unit :=
  let* l := get_terms result in
  let* r := get_terms another in
  let* extra := py_iter (VRef r) in
  let* items := load_list l in
  let* _ := store l (OList (items ++ extra)) in
  match result with
  | VRef self => set_terms self l
  | _ => unmodelled
  end.

(** The body of [for another in others] in [add]. *)
Definition add_step (result another : val) : M unit :=
  let* ty := type_of another in
  match ty with
  | TTerm => append_term result another
  | _ => extend_terms result another
  end.

(** [for another in others: ...] *)
Fixpoint add_loop (result : val) (others : list val) : M unit :=
  match others with
  | [] => ret tt
  | another :: rest =>
      let* _ := add_step result another in
      add_loop result rest
  end.

(** [add(self, *others)]: [result = Expression(self.terms)], the loop,
    [return result]. *)
Definition add (self : val) (others : list val) : M val :=
  let* terms := get_terms self in
  let* result := __init__ [VRef terms] in
  let* _ := add_loop result others in
  ret result.

(** [def multiply(self, another): pass] *)
Definition multiply (self another : val) : M val := ret VNone.

(** [__add__(self, other)]: [return self.add(other)] *)
Definition __add__ (self other : val) : M val := add self [other].

(** [__radd__(self, other)]: [return self.__add__(other)] *)
Definition __radd__ (self other : val) : M val := __add__ self other.

End Expression.

(** ** class Term *)

Module Term.

(** [from_constant(self, constant)] *)
Definition from_constant (self : loc) (constant : val) : M unit :=
  let* c := as_int constant in
  let* _ := set_coefficient self c in
  let* d := alloc (ODict []) in
  set_data self d.

(** [from_symbol(self, symbol, coefficient=1, power=1)] *)
Definition from_symbol_body (self : loc) (symbol : val)
    (coefficient power : option val) : M unit :=
  let* c := int_or_default 1 coefficient in
  let* _ := set_coefficient self c in
  let* s := as_str symbol in
  let* p := int_or_default 1 power in
  let* d := alloc (ODict [(s, p)]) in
  set_data self d.

Definition from_symbol (self : loc) (args : list val) : M unit :=
  match args with
  | [symbol] => from_symbol_body self symbol None None
  | [symbol; coefficient] => from_symbol_body self symbol (Some coefficient) None
  | [symbol; coefficient; power] =>
      from_symbol_body self symbol (Some coefficient) (Some power)
  | _ => raise TypeError
  end.

(** [from_dictionary(self, data, coefficient=1)]: the dictionary passed
    is stored itself, not a copy of it. *)
Definition from_dictionary_body (self : loc) (data : val)
    (coefficient : option val) : M unit :=
  match data with
  | VRef d =>
      let* _ := set_data self d in
      let* c := int_or_default 1 coefficient in
      set_coefficient self c
  | _ => unmodelled
  end.

Definition from_dictionary (self : loc) (args : list val) : M unit :=
  match args with
  | [data] => from_dictionary_body self data None
  | [data; coefficient] => from_dictionary_body self data (Some coefficient)
  | _ => raise TypeError
  end.

(** An optional sequence argument: its default, the empty list, yields
    nothing. *)
Definition iter_or_empty (v : option val) : M (list val) :=
  match v with
  | None => ret []
  | Some v => py_iter v
  end.

(** [from_lists(self, symbols=[], powers=[], coefficient=1)] *)
Definition from_lists_body (self : loc) (symbols powers coefficient : option val)
    : M unit :=
  let* c := int_or_default 1 coefficient in
  let* _ := set_coefficient self c in
  let* ss := iter_or_empty symbols in
  let* ps := iter_or_empty powers in
  let* entries := dict_comprehension (py_zip ss ps) [] in
  let* d := alloc (ODict entries) in
  set_data self d.

Definition from_lists (self : loc) (args : list val) : M unit :=
  match args with
  | [] => from_lists_body self None None None
  | [symbols] => from_lists_body self (Some symbols) None None
  | [symbols; powers] => from_lists_body self (Some symbols) (Some powers) None
  | [symbols; powers; coefficient] =>
      from_lists_body self (Some symbols) (Some powers) (Some coefficient)
  | _ => raise TypeError
  end.

(** [Term] applied to its arguments: a new instance, then [__init__],
    which dispatches on the type of the leading argument [args[0]]. *)
Definition __init__ (args : list val) : M val :=
  let* self := alloc (OTerm None None) in
  match args with
  | [] => raise IndexError
  | lead :: _ =>
      let* ty := type_of lead in
      let* _ := match ty with
                | TTerm =>
                    let* d := get_data lead in
                    let* entries := load_dict d in
                    let* d' := alloc (ODict entries) in
                    let* _ := set_data self d' in
                    let* c := get_coefficient lead in
                    set_coefficient self c
                | TInt => from_constant self lead
                | TStr => from_symbol self args
                | TDict => from_dictionary self args
                | _ => from_lists self args
                end in
      ret (VRef self)
  end.

(** [add(self, *others)]: [return Expression((self,) + others)] *)
Definition add (self : val) (others : list val) : M val :=
  let* t := alloc (OTuple (self :: others)) in
  Expression.__init__ [VRef t].

(** The inner loop of [multiply], on dictionary contents:
[[
    for symbol, exponent in another.data.items():
        if symbol in result_data:
            result_data[symbol] += another.data[symbol]
        else:
            result_data[symbol] = another.data[symbol]
]]
    [None] stands for a [KeyError] of one of the subscriptions. *)
Fixpoint merge_items (result_data another_data : dict) (items : dict)
    : option dict :=
  match items with
  | [] => Some result_data
  | (symbol, exponent) :: rest =>
      if dict_contains symbol result_data then
        match dict_get symbol result_data, dict_get symbol another_data with
        | Some old, Some e =>
            merge_items (dict_set symbol (old + e)%Z result_data) another_data rest
        | _, _ => None
        end
      else
        match dict_get symbol another_data with
        | Some e => merge_items (dict_set symbol e result_data) another_data rest
        | None => None
        end
  end.

(** The inner loop run over all the items of [another.data]. *)
Definition merge (result_data another_data : dict) : option dict :=
  merge_items result_data another_data another_data.

(** The outer loop of [multiply].  [map(Term, others)] is lazy: each
    operand is converted when the loop reaches it.  [result_data] is a
    dictionary no other object refers to, and [another.data] is a
    different dictionary, so the inner loop is run on the contents and
    the outcome written back. *)
Fixpoint multiply_loop (result_data : loc) (result_coeff : Z)
    (others : list val) : M Z :=
  match others with
  | [] => ret result_coeff
  | other :: rest =>
      let* another := __init__ [other] in
      let* ad := get_data another in
      let* another_data := load_dict ad in
      let* current := load_dict result_data in
      let* _ := match merge current another_data with
                | Some merged => store result_data (ODict merged)
                | None => raise KeyError
                end in
      let* c := get_coefficient another in
      multiply_loop result_data (result_coeff * c)%Z rest
  end.

(** [multiply(self, *others)]: [result_data = dict(self.data)],
    [result_coeff = self.coefficient], the loop over the operands
    converted to Terms, [return Term(result_data, result_coeff)]. *)
Definition multiply (self : val) (others : list val) : M val :=
  let* d := get_data self in
  let* entries := load_dict d in
  let* result_data := alloc (ODict entries) in
  let* result_coeff := get_coefficient self in
  let* result_coeff := multiply_loop result_data result_coeff others in
  __init__ [VRef result_data; VInt result_coeff].

Definition __add__ (self other : val) : M val := add self [other].

Definition __mul__ (self other : val) : M val := multiply self [other].

Definition __rmul__ (self other : val) : M val := __mul__ self other.

Definition __radd__ (self other : val) : M val := __add__ self other.

(** The local function of [__str__]. *)
Definition symbol_string (symbol : string) (power : Z) : string :=
  if (power =? 1)%Z then symbol
  else symbol +:+ "^" +:+ str_int power.

(** [__str__(self)] *)
Definition __str__ (self : val) : M string :=
  let* d := get_data self in
  let* entries := load_dict d in
  let symbol_strings := map (fun sp => symbol_string (fst sp) (snd sp)) entries in
  let prod := String.concat "*" symbol_strings in
  if String.eqb prod "" then
    let* c := get_coefficient self in
    ret (str_int c)
  else
    let* c := get_coefficient self in
    if (c =? 1)%Z then ret prod
    else ret (str_int c +:+ "*" +:+ prod).

End Term.

(** ** The binary operators [*] and [+]

    The left operand's method is tried first; a left operand that is not
    a [Term] (resp. an [Expression]) does not support the operation with
    a [Term] on its right, and the reflected method of the right operand
    is called. *)

Definition py_mul (a b : val) : M val :=
  let* ta := type_of a in
  let* tb := type_of b in
  match ta, tb with
  | TTerm, _ => Term.__mul__ a b
  | _, TTerm => Term.__rmul__ b a
  | _, _ =>
      match a, b with
      | VInt x, VInt y => ret (VInt (x * y))
      | _, _ => unmodelled
      end
  end.

Definition py_add (a b : val) : M val :=
  let* ta := type_of a in
  let* tb := type_of b in
  match ta, tb with
  | TTerm, _ => Term.__add__ a b
  | TExpression, _ => Expression.__add__ a b
  | _, TTerm => Term.__radd__ b a
  | _, TExpression => Expression.__radd__ b a
  | _, _ =>
      match a, b with
      | VInt x, VInt y => ret (VInt (x + y))
      | _, _ => unmodelled
      end
  end.

(** ** Observations used in the statements *)

(** What a [Term] object holds: the contents of its [data] dictionary and
    its coefficient. *)
Definition term_view (h : heap) (v : val) : option (dict * Z) :=
  match v with
  | VRef l =>
      match h !! l with
      | Some (OTerm (Some d) (Some c)) =>
          match h !! d with
          | Some (ODict entries) => Some (entries, c)
          | _ => None
          end
      | _ => None
      end
  | _ => None
  end.

(** The view of the [Term] a computation returns, run in the store [h]. *)
Definition returned_term (c : M val) (h : heap) : option (dict * Z) :=
  match c h with
  | Returns v h' => term_view h' v
  | _ => None
  end.

(** The elements of the [terms] list of an [Expression] object. *)
Definition expression_terms (h : heap) (v : val) : option (list val) :=
  match v with
  | VRef l =>
      match h !! l with
      | Some (OExpression (Some t)) =>
          match h !! t with
          | Some (OList items) => Some items
          | _ => None
          end
      | _ => None
      end
  | _ => None
  end.

(** Two dictionaries are equal as mappings (Python's [==] on dicts): the
    same keys with the same values, whatever the insertion order. *)
Definition dict_equiv (a b : dict) : Prop :=
  forall k, dict_get k a = dict_get k b.

(** The dictionary a comprehension builds from typed pairs. *)
Definition dict_of_pairs (pairs : list (string * Z)) : dict :=
  fold_left (fun acc p => dict_set (fst p) (snd p) acc) pairs [].


(** Dictionary contents are well formed when no key occurs twice, as in
    every Python dict. *)
Fixpoint unique_keys (d : dict) : Prop :=
  match d with
  | [] => True
  | (k, _) :: d' => dict_get k d' = None /\ unique_keys d'
  end.

(** Exponents contributed by the two sides of a product: a symbol absent
    from one side contributes nothing. *)
Definition add_opt (x y : option Z) : option Z :=
  match x, y with
  | Some a, Some b => Some (a + b)%Z
  | Some a, None => Some a
  | None, y => y
  end.

(** ** The expressions the specification evaluates *)

(** [Term(['x','y'], [2,1], 5).multiply(Term('x'))] *)
Definition product_lists_form : M val :=
  let* symbols := alloc (OList [VStr "x"; VStr "y"]) in
  let* powers := alloc (OList [VInt 2; VInt 1]) in
  let* t := Term.__init__ [VRef symbols; VRef powers; VInt 5] in
  let* x := Term.__init__ [VStr "x"] in
  Term.multiply t [x].

(** [Term(5, ['x','y'], [2,1]).multiply(Term('x'))] *)
Definition product_coefficient_first : M val :=
  let* symbols := alloc (OList [VStr "x"; VStr "y"]) in
  let* powers := alloc (OList [VInt 2; VInt 1]) in
  let* t := Term.__init__ [VInt 5; VRef symbols; VRef powers] in
  let* x := Term.__init__ [VStr "x"] in
  Term.multiply t [x].

(** [5 * Term('x')] *)
Definition five_times_x : M val :=
  let* x := Term.__init__ [VStr "x"] in
  py_mul (VInt 5) x.

(** [Term('x') * 5] *)
Definition x_times_five : M val :=
  let* x := Term.__init__ [VStr "x"] in
  py_mul x (VInt 5).

(** [Term({'x': 1}, 5)] *)
Definition term_of_mapping_then_coefficient : M val :=
  let* d := alloc (ODict [("x", 1%Z)]) in
  Term.__init__ [VRef d; VInt 5].

(** [Term(5, {'x': 1})] *)
Definition term_of_coefficient_then_mapping : M val :=
  let* d := alloc (ODict [("x", 1%Z)]) in
  Term.__init__ [VInt 5; VRef d].

(** [Term('', 5).__str__()] *)
Definition render_empty_symbol : M string :=
  let* t := Term.__init__ [VStr ""; VInt 5] in
  Term.__str__ t.

(** ** Rendering as the specification words it

    For each (symbol, exponent) pair of the monomial, in iteration order:
    the symbol if the exponent is 1, else symbol^exponent; these joined
    with a star.  If the monomial is empty, the coefficient alone;
    otherwise the joined string if the coefficient is exactly 1, else
    coefficient, star, joined string. *)
Definition render_spec (monomial : dict) (coefficient : Z) : string :=
  let piece := fun se : string * Z =>
                 if (snd se =? 1)%Z then fst se
                 else fst se +:+ "^" +:+ str_int (snd se) in
  let joined := String.concat "*" (map piece monomial) in
  match monomial with
  | [] => str_int coefficient
  | _ :: _ =>
      if (coefficient =? 1)%Z then joined
      else str_int coefficient +:+ "*" +:+ joined
  end.

(** ** Operands of [Expression.add] *)

(** The terms an operand contributes to the sum: a [Term] contributes
    itself, an [Expression] the elements of its [terms] list. *)
Definition operand_terms (h : heap) (o : val) : option (list val) :=
  match o with
  | VRef l =>
      match h !! l with
      | Some (OTerm _ _) => Some [o]
      | Some (OExpression (Some t)) =>
          match h !! t with
          | Some (OList items) => Some items
          | _ => None
          end
      | _ => None
      end
  | _ => None
  end.

(** The contributions of all the operands, in argument order. *)
Fixpoint flattened (h : heap) (others : list val) : option (list val) :=
  match others with
  | [] => Some []
  | o :: rest =>
      match operand_terms h o, flattened h rest with
      | Some a, Some b => Some (a ++ b)
      | _, _ => None
      end
  end.

(** The views of the terms of the [Expression] a computation returns. *)
Definition returned_expression (c : M val) (h : heap)
    : option (list (option (dict * Z))) :=
  match c h with
  | Returns v h' =>
      match expression_terms h' v with
      | Some items => Some (map (term_view h') items)
      | None => None
      end
  | _ => None
  end.

(** [Expression([Term('x')]).add(Expression([Term('y'), Term(2)]))] *)
Definition sum_of_expressions : M val :=
  let* x := Term.__init__ [VStr "x"] in
  let* l1 := alloc (OList [x]) in
  let* e1 := Expression.__init__ [VRef l1] in
  let* y := Term.__init__ [VStr "y"] in
  let* two := Term.__init__ [VInt 2] in
  let* l2 := alloc (OList [y; two]) in
  let* e2 := Expression.__init__ [VRef l2] in
  Expression.add e1 [e2].

(** The store in which that call of [add] is made: [Term('x')] at 0, the
    receiver at 3 with its terms at 4, [Term('y')] at 5, [Term(2)] at 7,
    the operand at 10 with its terms at 11. *)
Definition store_before_sum : heap :=
  [OTerm (Some 1) (Some 1%Z); ODict [("x", 1%Z)]; OList [VRef 0];
   OExpression (Some 4); OList [VRef 0];
   OTerm (Some 6) (Some 1%Z); ODict [("y", 1%Z)];
   OTerm (Some 8) (Some 2%Z); ODict [];
   OList [VRef 5; VRef 7];
   OExpression (Some 11); OList [VRef 5; VRef 7]].

(** ** Outcomes of [Expression.add] that leave the old store alone

    The store after the call is the store [h] before it followed by the
    two objects the call creates: the result and its list of terms. *)
Definition framed {A} (h : heap) (o : outcome A) : Prop :=
  match o with
  | Returns _ h' | Raises _ h' =>
      exists items,
        h' = h ++ [OExpression (Some (length h + 1)); OList items]
  | Unmodelled => True
  end.

(** The store of [x_plus_y = Term('x') + 'y'] once [Term('x')] is built. *)
Definition store_with_x : heap :=
  [OTerm (Some 1) (Some 1%Z); ODict [("x", 1%Z)]].

(** * Further observations *)

(** ** Outcomes that only add objects to the store

    The store after the run is the store [h] before it followed by new
    objects: no object of [h] is modified, whether the run returns or
    raises. *)
Definition grows {A} (h : heap) (o : outcome A) : Prop :=
  match o with
  | Returns _ h' | Raises _ h' => exists news, h' = h ++ news
  | Unmodelled => True
  end.

(** A run that returns, returns a reference to an object created during
    the run. *)
Definition returns_new (h : heap) (o : outcome val) : Prop :=
  match o with
  | Returns (VRef l) h' => length h <= l < length h'
  | Returns _ _ => False
  | _ => True
  end.

(** ** Operands of [Term.multiply]

    What [Term(o)] holds for an operand [o]: an int is a constant, a
    string a symbol with power 1, a dictionary a monomial with
    coefficient 1, a list or tuple (symbols without powers) the constant
    1, a Term itself. *)
Definition operand_view (h : heap) (o : val) : option (dict * Z) :=
  match o with
  | VInt z => Some ([], z)
  | VStr s => Some ([(s, 1%Z)], 1%Z)
  | VRef l =>
      match h !! l with
      | Some (OTerm (Some d) (Some c)) =>
          match h !! d with
          | Some (ODict m) => Some (m, c)
          | _ => None
          end
      | Some (ODict m) => Some (m, 1%Z)
      | Some (OList _) | Some (OTuple _) => Some ([], 1%Z)
      | _ => None
      end
  | _ => None
  end.

(** The views of all the operands, when each has one. *)
Fixpoint operand_views (h : heap) (others : list val)
    : option (list (dict * Z)) :=
  match others with
  | [] => Some []
  | o :: rest =>
      match operand_view h o, operand_views h rest with
      | Some v, Some vs => Some (v :: vs)
      | _, _ => None
      end
  end.

(** The running product: monomials merged and coefficients multiplied,
    in argument order. *)
Fixpoint product_view (acc : dict * Z) (views : list (dict * Z))
    : option (dict * Z) :=
  match views with
  | [] => Some acc
  | (m, c) :: rest =>
      match Term.merge (fst acc) m with
      | Some merged => product_view (merged, (snd acc * c)%Z) rest
      | None => None
      end
  end.

(** The keys of a dictionary, in insertion order. *)
Definition keys (d : dict) : list string := map fst d.

(** The power the list form gives a symbol: the one paired with its last
    occurrence. *)
Fixpoint last_power (k : string) (pairs : list (string * Z)) : option Z :=
  match pairs with
  | [] => None
  | (k', v) :: rest =>
      match last_power k rest with
      | Some v' => Some v'
      | None => if String.eqb k k' then Some v else None
      end
  end.

(** A run that reads the store without changing it. *)
Definition same_store {A} (h : heap) (o : outcome A) : Prop :=
  match o with
  | Returns _ h' | Raises _ h' => h' = h
  | Unmodelled => True
  end.

(** A run that modifies no object of [h] and, when it returns, returns a
    new object. *)
Definition creates (h : heap) (o : outcome val) : Prop :=
  grows h o /\ returns_new h o.

(** Leading arguments that reach the list form of [Term] and cannot be
    iterated by [zip]: [None], a float, an [Expression]. *)
Definition unsupported_lead (h : heap) (v : val) : bool :=
  match v with
  | VNone | VFloat _ => true
  | VRef l =>
      match h !! l with
      | Some (OExpression _) => true
      | _ => false
      end
  | _ => false
  end.

(** The optional trailing arguments of a call, as passed. *)
Definition optional_int (v : option Z) : list val :=
  match v with
  | Some z => [VInt z]
  | None => []
  end.

(** A store holding [Term(5)] at 0, [Term('x')] at 2 and [Term('y')] at 4,
    the operands of [Term(5).multiply(Term('x'), Term('x'), Term('y'))]. *)
Definition store_of_factors : heap :=
  [OTerm (Some 1) (Some 5%Z); ODict [];
   OTerm (Some 3) (Some 1%Z); ODict [("x", 1%Z)];
   OTerm (Some 5) (Some 1%Z); ODict [("y", 1%Z)]].

(** ** Rendering of expressions *)

(** [str(v)] for the element kinds of a list of terms: a string is
    itself, an int its decimal form, [None] its name, a Term what its
    [__str__] returns.  Floats and containers are outside the fragment,
    and so is an Expression nested in another. *)
Definition py_str (v : val) : M string :=
  match v with
  | VStr s => ret s
  | VInt z => ret (str_int z)
  | VNone => ret "None"
  | VFloat _ => unmodelled
  | VRef l =>
      let* o := load l in
      match o with
      | OTerm _ _ => Term.__str__ v
      | _ => unmodelled
      end
  end.

(** [map(str, items)], consumed from left to right. *)
Fixpoint str_all (items : list val) : M (list string) :=
  match items with
  | [] => ret []
  | x :: rest =>
      let* s := py_str x in
      let* ss := str_all rest in
      ret (s :: ss)
  end.

(** [Expression.__str__(self)]: [return '+'.join(map(str, self.terms))] *)
Definition Expression__str__ (self : val) : M string :=
  let* t := get_terms self in
  let* items := load_list t in
  let* strings := str_all items in
  ret (String.concat "+" strings).

(** What [Term.__str__] computes from the contents of a Term. *)
Definition render_term (m : dict) (c : Z) : string :=
  let prod :=
    String.concat "*"
      (map (fun sp => Term.symbol_string (fst sp) (snd sp)) m) in
  if String.eqb prod "" then str_int c
  else if (c =? 1)%Z then prod
  else str_int c +:+ "*" +:+ prod.

(** The string [str] gives an element, read off the store. *)
Definition item_string (h : heap) (v : val) : option string :=
  match v with
  | VStr s => Some s
  | VInt z => Some (str_int z)
  | VNone => Some "None"
  | VFloat _ => None
  | VRef l =>
      match term_view h v with
      | Some (m, c) => Some (render_term m c)
      | None => None
      end
  end.

Fixpoint item_strings (h : heap) (items : list val) : option (list string) :=
  match items with
  | [] => Some []
  | x :: rest =>
      match item_string h x, item_strings h rest with
      | Some s, Some ss => Some (s :: ss)
      | _, _ => None
      end
  end.

(** ** The first version of [Expression]

    The lesson first defines [Expression] with
    [__init__(self, terms): self.terms = terms], which keeps the list it
    is given, and then redefines it with [list(terms)].  Its instances
    are represented by the same store objects. *)
Definition first_Expression__init__ (args : list val) : M val :=
  let* self := alloc (OExpression None) in
  match args with
  | [VRef terms] =>
      let* _ := set_terms self terms in
      ret (VRef self)
  | [_] => unmodelled
  | _ => raise TypeError
  end.

(** Operands of [+] that are neither a Term nor an Expression: they have
    no [terms] attribute. *)
Definition raw_operand (h : heap) (v : val) : bool :=
  match v with
  | VRef l =>
      match h !! l with
      | Some (OList _) | Some (OTuple _) | Some (ODict _) => true
      | _ => false
      end
  | _ => true
  end.

(** A store with the Expression [Term('x') + Term('y')] at 4 and [Term(2)]
    at 6. *)
Definition store_with_sum : heap :=
  [OTerm (Some 1) (Some 1%Z); ODict [("x", 1%Z)];
   OTerm (Some 3) (Some 1%Z); ODict [("y", 1%Z)];
   OExpression (Some 5); OList [VRef 0; VRef 2];
   OTerm (Some 7) (Some 2%Z); ODict []].

(** The same store with, in addition, the Expression holding [Term(2)]
    alone at 8. *)
Definition store_two_sums : heap :=
  store_with_sum ++ [OExpression (Some 9); OList [VRef 6]].

(** * Iterators, generators and decorators
      ([ch07dry/025Iterators.ipynb.py])

    Seeds, limits and counters are ints. *)

(** What [next(it)] does: it returns a value or raises [StopIteration];
    either way the iterator is left in a new state. *)
Inductive next_result (S : Type) : Type :=
| Yielded (v : Z) (s : S)
| Stopped (s : S).
Arguments Yielded {S} v s.
Arguments Stopped {S} s.

(** [list(it)]: [next] is called until it raises [StopIteration]; the
    fuel bounds the number of calls. *)
Fixpoint drain {S : Type} (next : S -> next_result S) (fuel : nat) (s : S)
    : option (list Z) :=
  match fuel with
  | O => None
  | S fuel' =>
      match next s with
      | Stopped _ => Some []
      | Yielded v s' =>
          match drain next fuel' s' with
          | Some vs => Some (v :: vs)
          | None => None
          end
      end
  end.

(** ** class fib_iterator *)

Record fib_state : Type := {
  limit : Z;
  previous : Z;
  current : Z
}.

(** [fib_iterator(limit, seed1=1, seed2=1)] *)
Definition fib_iterator (limit seed1 seed2 : Z) : fib_state :=
  {| limit := limit; previous := seed1; current := seed2 |}.

(** [__next__]: the pair is advanced and the limit decremented before the
    limit is tested. *)
Definition fib_next (self : fib_state) : next_result fib_state :=
  let self' := {| limit := limit self - 1;
                  previous := current self;
                  current := previous self + current self |} in
  if (limit self' <? 0)%Z then Stopped self'
  else Yielded (current self') self'.

(** ** The generator yield_fibs

    The state of the suspended generator is the value of its three local
    variables. *)
Record fibs_state : Type := {
  g_limit : Z;
  g_current : Z;
  g_previous : Z
}.

(** [yield_fibs(limit, seed1=1, seed2=1)]: [current = seed1],
    [previous = seed2]. *)
Definition yield_fibs (limit seed1 seed2 : Z) : fibs_state :=
  {| g_limit := limit; g_current := seed1; g_previous := seed2 |}.

(** Resuming the generator: one turn of [while limit > 0], up to the
    [yield]; when the loop ends the generator is finished. *)
Definition yield_fibs_next (g : fibs_state) : next_result fibs_state :=
  if (g_limit g >? 0)%Z then
    let g' := {| g_limit := g_limit g - 1;
                 g_current := g_current g + g_previous g;
                 g_previous := g_current g |} in
    Yielded (g_current g') g'
  else Stopped g.

(** ** The decorator repeater

    [repeater(count)(func)] is the function [_repeated]; its loop
    [while counter > 0: counter -= 1; x = func(x)] is run with a bound on
    the number of turns. *)
Fixpoint repeated_loop {A : Type} (func : A -> A) (fuel : nat) (counter : Z)
    (x : A) : option A :=
  match fuel with
  | O => None
  | S fuel' =>
      if (counter >? 0)%Z then repeated_loop func fuel' (counter - 1)%Z (func x)
      else Some x
  end.

(** [repeater(count)(func)(x)] *)
Definition repeater {A : Type} (count : Z) (func : A -> A) (fuel : nat)
    (x : A) : option A :=
  repeated_loop func fuel count x.

(** [hello] before decoration: [f"Hello, {name}"] *)
Definition hello (name : string) : string := "Hello, " +:+ name.
(** * Reasoning about the store *)

Section StoreLemmas.

Lemma lookup_new (h t : heap) (k : nat) : (h ++ t) !! (length h + k) = t !! k.
Proof. rewrite lookup_app_r by lia. f_equal. lia. Qed.

Lemma lookup_new0 (h t : heap) : (h ++ t) !! length h = t !! 0.
Proof. rewrite lookup_app_r by lia. f_equal. lia. Qed.

Lemma insert_new0 (h t : heap) (o : obj) :
  <[length h := o]> (h ++ t) = h ++ <[0 := o]> t.
Proof. rewrite <- (insert_app_r h t 0). f_equal. lia. Qed.

End StoreLemmas.

(** Normalises a store of the shape [h ++ new objects]: reads and writes
    of the new objects are computed, reads of objects of [h] use the
    hypotheses about [h]. *)
Ltac heap_simpl :=
  repeat (cbn;
    rewrite <- ?app_assoc, ?length_app, <- ?Nat.add_assoc, ?lookup_new,
            ?lookup_new0, ?insert_app_r, ?insert_new0;
    repeat match goal with
      | H : ?h !! ?l = Some ?o |- context [(?h ++ ?t) !! ?l] =>
          rewrite (lookup_app_l_Some h t l o H)
      | H : ?h !! ?l = Some ?o |- context [?h !! ?l] => rewrite H
      end).

Ltac munfold :=
  unfold Term.__init__, Term.from_constant, Term.from_symbol,
    Term.from_symbol_body, Term.from_dictionary, Term.from_dictionary_body,
    Term.from_lists, Term.from_lists_body, Term.iter_or_empty,
    Term.add, Term.__add__, Term.__radd__, Term.__mul__, Term.__rmul__,
    Term.multiply, Term.__str__,
    Expression.__init__, Expression.add, Expression.__add__,
    Expression.__radd__, Expression.append_term, Expression.extend_terms,
    Expression.add_step,
    py_add, py_mul, py_list, int_or_default, as_int, as_str,
    get_data, get_coefficient, get_terms, set_data, set_coefficient, set_terms,
    load_dict, load_list, py_iter, type_of,
    bind, ret, raise, unmodelled, alloc, load, store.

(** * Term construction *)

Section Construction.

Lemma dict_comprehension_typed (symbols : list string) (powers : list Z)
    (acc : dict) (h : heap) :
  dict_comprehension (py_zip (map VStr symbols) (map VInt powers)) acc h
  = Returns (fold_left (fun acc p => dict_set (fst p) (snd p) acc)
               (combine symbols powers) acc) h.
Proof.
  revert powers acc.
  induction symbols as [|s symbols IH]; intros [|p powers] acc; cbn; try reflexivity.
  apply IH.
Qed.

Lemma combine_take_min {A B} (a : list A) (b : list B) :
  combine (take (length a `min` length b) a) (take (length a `min` length b) b)
  = combine a b.
Proof.
  revert b. induction a as [|x a IH]; intros [|y b]; cbn; try reflexivity.
  f_equal. apply IH.
Qed.

(** C6 (as the code has it).  For every integer constant [z], in every
    store, [Term(z)] (whatever further arguments follow) returns a new
    constant Term: its monomial mapping is a new empty dictionary and its
    coefficient is [z]; nothing else in the store changes. *)
Theorem C6_int_constant (z : Z) (rest : list val) (h : heap) :
  Term.__init__ (VInt z :: rest) h
  = Returns (VRef (length h))
      (h ++ [OTerm (Some (length h + 1)) (Some z); ODict []]).
Proof. munfold. heap_simpl. reflexivity. Qed.

(** C6, counterexample.  A real constant is not of type [int]: [Term(1.5)]
    falls through to the list form, where [zip] cannot iterate a float, so
    construction raises [TypeError] and no constant Term is built. *)
Lemma C6_float_constant_raises :
  (exists h', Term.__init__ [VFloat 1.5%float] [] = Raises TypeError h') /\
  returned_term (Term.__init__ [VFloat 1.5%float]) [] = None.
Proof. split; [eexists|]; reflexivity. Qed.

(** C2 (as the code has it).  For all lists of symbols and of powers, of
    equal length or not, [Term(symbols, powers)] and
    [Term(symbols, powers, coefficient)] raise nothing: [zip] stops at the
    shorter list, and the new Term's mapping is built from the pairs up to
    that length, its coefficient being the one passed, 1 by default. *)
Theorem C2_from_lists_truncates (symbols : list string) (powers : list Z)
    (coefficient : option Z) (h : heap) (ls lp : loc) :
  h !! ls = Some (OList (map VStr symbols)) ->
  h !! lp = Some (OList (map VInt powers)) ->
  let n := length symbols `min` length powers in
  Term.__init__
    (VRef ls :: VRef lp ::
       match coefficient with Some c => [VInt c] | None => [] end) h
  = Returns (VRef (length h))
      (h ++ [OTerm (Some (length h + 1)) (Some (default 1%Z coefficient));
             ODict (dict_of_pairs (combine (take n symbols) (take n powers)))]).
Proof.
  intros Hs Hp n. subst n. rewrite combine_take_min. unfold dict_of_pairs.
  destruct coefficient as [c|]; munfold; heap_simpl;
    rewrite dict_comprehension_typed; heap_simpl; reflexivity.
Qed.

(** Witness for C2: symbols [['x'; 'y']] against the single power [[2]]. *)
Lemma C2_from_lists_truncates_witness :
  Term.__init__ [VRef 0; VRef 1]
    [OList [VStr "x"; VStr "y"]; OList [VInt 2]]
  = Returns (VRef 2)
      [OList [VStr "x"; VStr "y"]; OList [VInt 2];
       OTerm (Some 3) (Some 1%Z); ODict [("x", 2%Z)]].
Proof.
  exact (C2_from_lists_truncates ["x"; "y"] [2%Z] None
           [OList [VStr "x"; VStr "y"]; OList [VInt 2]] 0 1 eq_refl eq_refl).
Defined.

(** C2, counterexample.  Two symbols against one power: construction
    returns a Term (mapping [{x: 2}], coefficient 1) and raises nothing. *)
Lemma C2_unequal_lengths_no_error :
  let h := [OList [VStr "x"; VStr "y"]; OList [VInt 2]] in
  length [VStr "x"; VStr "y"] <> length [VInt 2] /\
  returned_term (Term.__init__ [VRef 0; VRef 1]) h = Some ([("x", 2%Z)], 1%Z) /\
  ~ (exists e h', Term.__init__ [VRef 0; VRef 1] h = Raises e h').
Proof.
  cbn. split; [discriminate|]. split; [reflexivity|].
  intros (e & h' & H). discriminate H.
Qed.

End Construction.

(** * Dictionaries *)

Section Dictionaries.

Lemma dict_get_set_eq (k : string) (v : Z) (d : dict) :
  dict_get k (dict_set k v d) = Some v.
Proof.
  induction d as [|[k' v'] d IH]; cbn.
  - by rewrite String.eqb_refl.
  - destruct (String.eqb k k') eqn:E; cbn.
    + by rewrite String.eqb_refl.
    + by rewrite E.
Qed.

Lemma dict_get_set_ne (k k' : string) (v : Z) (d : dict) :
  k <> k' -> dict_get k' (dict_set k v d) = dict_get k' d.
Proof.
  intros Hne. induction d as [|[k0 v0] d IH]; cbn.
  - destruct (String.eqb k' k) eqn:E; [|done].
    apply String.eqb_eq in E. congruence.
  - destruct (String.eqb k k0) eqn:E; cbn.
    + apply String.eqb_eq in E. subst k0.
      destruct (String.eqb k' k) eqn:E'; [|done].
      apply String.eqb_eq in E'. congruence.
    + by rewrite IH.
Qed.

Lemma unique_keys_set (k : string) (v : Z) (d : dict) :
  unique_keys d -> unique_keys (dict_set k v d).
Proof.
  induction d as [|[k' v'] d IH]; cbn; [done|].
  intros [Hk Hd]. destruct (String.eqb k k') eqn:E; cbn.
  - apply String.eqb_eq in E. by subst k'.
  - apply String.eqb_neq in E. split; [|by apply IH].
    by rewrite dict_get_set_ne.
Qed.

Lemma add_opt_comm (x y : option Z) : add_opt x y = add_opt y x.
Proof. destruct x, y; cbn; f_equal; lia. Qed.

Lemma add_opt_assoc (x y z : option Z) :
  add_opt (add_opt x y) z = add_opt x (add_opt y z).
Proof. destruct x, y, z; cbn; f_equal; lia. Qed.

(** The inner loop of [multiply] never misses a key, and adds to every
    symbol the exponent the iterated dictionary gives it. *)
Lemma merge_items_spec (items result_data another_data : dict) :
  unique_keys items ->
  (forall k e, dict_get k items = Some e -> dict_get k another_data = Some e) ->
  exists merged,
    Term.merge_items result_data another_data items = Some merged /\
    (forall k, dict_get k merged
               = add_opt (dict_get k result_data) (dict_get k items)) /\
    (unique_keys result_data -> unique_keys merged).
Proof.
  revert result_data.
  induction items as [|[s e] rest IH]; intros result_data Hu Ha; cbn.
  - exists result_data. split; [done|]. split; [|done].
    intros k. by destruct (dict_get k result_data).
  - destruct Hu as [Hs Hrest].
    assert (He : dict_get s another_data = Some e).
    { apply Ha. cbn. by rewrite String.eqb_refl. }
    assert (Ha' : forall k e', dict_get k rest = Some e' ->
                               dict_get k another_data = Some e').
    { intros k e' Hk. apply Ha. cbn.
      destruct (String.eqb k s) eqn:E; [|done].
      apply String.eqb_eq in E. subst k. congruence. }
    unfold dict_contains. rewrite He.
    destruct (dict_get s result_data) as [old|] eqn:Hold.
    + destruct (IH (dict_set s (old + e)%Z result_data) Hrest Ha')
        as (merged & Hm & Hget & Huniq).
      exists merged. split; [done|]. split.
      * intros k. rewrite Hget. destruct (String.eqb k s) eqn:E.
        -- apply String.eqb_eq in E. subst k.
           by rewrite dict_get_set_eq, Hold, Hs.
        -- apply String.eqb_neq in E. by rewrite dict_get_set_ne.
      * intros Hr. by apply Huniq, unique_keys_set.
    + destruct (IH (dict_set s e result_data) Hrest Ha')
        as (merged & Hm & Hget & Huniq).
      exists merged. split; [done|]. split.
      * intros k. rewrite Hget. destruct (String.eqb k s) eqn:E.
        -- apply String.eqb_eq in E. subst k.
           by rewrite dict_get_set_eq, Hold, Hs.
        -- apply String.eqb_neq in E. by rewrite dict_get_set_ne.
      * intros Hr. by apply Huniq, unique_keys_set.
Qed.

Lemma merge_spec (m1 m2 : dict) :
  unique_keys m2 ->
  exists merged,
    Term.merge m1 m2 = Some merged /\
    (forall k, dict_get k merged = add_opt (dict_get k m1) (dict_get k m2)) /\
    (unique_keys m1 -> unique_keys merged).
Proof. intros Hu. by apply merge_items_spec. Qed.

End Dictionaries.

(** * Multiplication *)

Section Multiplication.

(** C5.  On dictionaries without repeated keys, the merge that
    [Term.multiply] performs always succeeds, and as mappings (insertion
    order disregarded) [merge m1 m2 == merge m2 m1] and
    [merge (merge m1 m2) m3 == merge m1 (merge m2 m3)]. *)
Theorem C5_merge_commutative_associative (m1 m2 m3 : dict) :
  unique_keys m1 -> unique_keys m2 -> unique_keys m3 ->
  (exists m12 m21,
      Term.merge m1 m2 = Some m12 /\ Term.merge m2 m1 = Some m21 /\
      dict_equiv m12 m21) /\
  (exists m12 m12_3 m23 m1_23,
      Term.merge m1 m2 = Some m12 /\ Term.merge m12 m3 = Some m12_3 /\
      Term.merge m2 m3 = Some m23 /\ Term.merge m1 m23 = Some m1_23 /\
      dict_equiv m12_3 m1_23).
Proof.
  intros H1 H2 H3.
  destruct (merge_spec m1 m2 H2) as (m12 & E12 & G12 & U12).
  destruct (merge_spec m2 m1 H1) as (m21 & E21 & G21 & U21).
  destruct (merge_spec m12 m3 H3) as (m12_3 & E12_3 & G12_3 & _).
  destruct (merge_spec m2 m3 H3) as (m23 & E23 & G23 & U23).
  destruct (merge_spec m1 m23 (U23 H2)) as (m1_23 & E1_23 & G1_23 & _).
  split.
  - exists m12, m21. do 2 (split; [done|]).
    intros k. rewrite G12, G21. apply add_opt_comm.
  - exists m12, m12_3, m23, m1_23. do 4 (split; [done|]).
    intros k. rewrite G12_3, G12, G1_23, G23. apply add_opt_assoc.
Qed.

(** Witness for C5: [{x: 2, y: 1}], [{y: 3, z: 1}] and [{x: 1}]. *)
Lemma C5_merge_commutative_associative_witness :
  (exists m12 m21,
      Term.merge [("x", 2%Z); ("y", 1%Z)] [("y", 3%Z); ("z", 1%Z)] = Some m12 /\
      Term.merge [("y", 3%Z); ("z", 1%Z)] [("x", 2%Z); ("y", 1%Z)] = Some m21 /\
      dict_equiv m12 m21) /\
  (exists m12 m12_3 m23 m1_23,
      Term.merge [("x", 2%Z); ("y", 1%Z)] [("y", 3%Z); ("z", 1%Z)] = Some m12 /\
      Term.merge m12 [("x", 1%Z)] = Some m12_3 /\
      Term.merge [("y", 3%Z); ("z", 1%Z)] [("x", 1%Z)] = Some m23 /\
      Term.merge [("x", 2%Z); ("y", 1%Z)] m23 = Some m1_23 /\
      dict_equiv m12_3 m1_23).
Proof.
  apply (C5_merge_commutative_associative
           [("x", 2%Z); ("y", 1%Z)] [("y", 3%Z); ("z", 1%Z)] [("x", 1%Z)]);
    cbn; auto.
Defined.

(** [Term.multiply] stores that merge: the product of two Term objects is
    a new Term whose dictionary is the merge of copies of the operands'
    dictionaries and whose coefficient is the product of theirs.  The
    operands and their dictionaries stay as they were. *)
Lemma multiply_two (h : heap) (self other ds do : loc) (m1 m2 m : dict)
    (cs co : Z) :
  h !! self = Some (OTerm (Some ds) (Some cs)) ->
  h !! ds = Some (ODict m1) ->
  h !! other = Some (OTerm (Some do) (Some co)) ->
  h !! do = Some (ODict m2) ->
  Term.merge m1 m2 = Some m ->
  Term.multiply (VRef self) [VRef other] h
  = Returns (VRef (length h + 3))
      (h ++ [ODict m;
             OTerm (Some (length h + 2)) (Some co); ODict m2;
             OTerm (Some (length h)) (Some (cs * co)%Z)]).
Proof.
  intros Hself Hds Hother Hdo Hm.
  munfold. heap_simpl. munfold. heap_simpl. rewrite Hm. heap_simpl.
  reflexivity.
Qed.

(** C3 (as the code has it).  With the arguments in the order the
    constructor takes them, [Term(['x','y'], [2,1], 5).multiply(Term('x'))]
    has monomial mapping [{x: 3, y: 1}] and coefficient 5, in whatever
    store it is evaluated. *)
Theorem C3_product_lists_form (h : heap) :
  returned_term product_lists_form h = Some ([("x", 3%Z); ("y", 1%Z)], 5%Z).
Proof.
  unfold returned_term, product_lists_form.
  do 4 (munfold; heap_simpl). unfold term_view. heap_simpl. reflexivity.
Qed.

(** C3, counterexample.  [Term(5, ['x','y'], [2,1])] has an int as leading
    argument, so it is the constant 5 and the two lists are ignored; its
    product with [Term('x')] has mapping [{x: 1}], in which [y] is absent
    and [x] has exponent 1, not 3. *)
Lemma C3_coefficient_first_is_constant :
  returned_term product_coefficient_first [] = Some ([("x", 1%Z)], 5%Z) /\
  ~ (exists m c, returned_term product_coefficient_first [] = Some (m, c) /\
                 dict_equiv m [("x", 3%Z); ("y", 1%Z)]).
Proof.
  split; [reflexivity|].
  intros (m & c & Hm & Heq). injection Hm as <- <-.
  specialize (Heq "y"). discriminate Heq.
Qed.

(** With a [Term] on the right and anything but a [Term] on the left,
    [*] is the reflected method of the right operand, which is the very
    computation of the operands in the other order. *)
Lemma py_mul_reflected (h : heap) (a : val) (t : loc) (ta : pytype)
    (d : option loc) (c : option Z) :
  h !! t = Some (OTerm d c) ->
  type_of a h = Returns ta h ->
  ta <> TTerm ->
  py_mul a (VRef t) h = Term.__rmul__ (VRef t) a h /\
  py_mul a (VRef t) h = py_mul (VRef t) a h.
Proof.
  intros Ht Ha Hta.
  assert (Hty : type_of (VRef t) h = Returns TTerm h).
  { unfold type_of, bind, load, ret. by rewrite Ht. }
  unfold py_mul, bind. rewrite Ha, Hty, Ha.
  by destruct ta.
Qed.

(** C4 (as the code has it).  [5 * Term('x')] and [Term('x') * 5] are the
    same computation, the first being the reflected method [__rmul__] of
    the Term; both produce a Term with mapping [{x: 1}] and coefficient 5,
    as does [Term({'x': 1}, 5)], in whatever store they are evaluated. *)
Theorem C4_mixed_product_symmetric (h : heap) :
  five_times_x h = x_times_five h /\
  five_times_x h
    = (let* x := Term.__init__ [VStr "x"] in Term.__rmul__ x (VInt 5)) h /\
  returned_term five_times_x h = Some ([("x", 1%Z)], 5%Z) /\
  returned_term x_times_five h = Some ([("x", 1%Z)], 5%Z) /\
  returned_term term_of_mapping_then_coefficient h = Some ([("x", 1%Z)], 5%Z).
Proof.
  unfold returned_term, five_times_x, x_times_five,
    term_of_mapping_then_coefficient.
  repeat split; do 4 (munfold; heap_simpl); unfold term_view; heap_simpl;
    reflexivity.
Qed.

(** C4, counterexample.  [Term(5, {'x': 1})] has an int as leading
    argument: it is the constant 5 with an empty mapping, which is not the
    mapping [{x: 1}] of [5 * Term('x')]. *)
Lemma C4_coefficient_first_differs :
  returned_term term_of_coefficient_then_mapping [] = Some ([], 5%Z) /\
  returned_term five_times_x [] <> returned_term term_of_coefficient_then_mapping [].
Proof. split; [reflexivity | discriminate]. Qed.

End Multiplication.

(** * Rendering *)

Section Rendering.

Lemma append_empty (a b : string) : a +:+ b = "" -> a = "".
Proof. by destruct a. Qed.

Lemma symbol_string_empty (symbol : string) (power : Z) :
  Term.symbol_string symbol power = "" -> symbol = "" /\ power = 1%Z.
Proof.
  unfold Term.symbol_string. destruct (power =? 1)%Z eqn:E.
  - intros ->. split; [done|]. by apply Z.eqb_eq.
  - intros H. pose proof (append_empty _ _ H) as Hs. subst symbol.
    discriminate H.
Qed.

Lemma concat_star_empty (l : list string) :
  String.concat "*" l = "" -> l = [] \/ l = [""].
Proof.
  destruct l as [|x [|y l]]; cbn; intros H.
  - by left.
  - right. by subst x.
  - apply append_empty in H as Hx. subst x. discriminate H.
Qed.

(** The joined string of a monomial is empty only for the empty monomial
    and for the monomial [{'': 1}]. *)
Lemma joined_empty (m : dict) :
  String.concat "*" (map (fun sp => Term.symbol_string (fst sp) (snd sp)) m) = "" ->
  m = [] \/ m = [("", 1%Z)].
Proof.
  intros H. apply concat_star_empty in H as [H|H].
  - left. by destruct m.
  - right. destruct m as [|[s e] [|? ?]]; try discriminate H.
    injection H as H. apply symbol_string_empty in H as [-> ->]. done.
Qed.




End Rendering.

(** * Expressions *)

Section Expressions.

Ltac destruct_scrutinee :=
  match goal with
  | |- context [match ?x with _ => _ end] =>
      lazymatch x with
      | context [match _ with _ => _ end] => fail
      | _ => destruct x eqn:?
      end
  end.



(** C1 (as the code has it).  [Expression.multiply] is a stub: for every
    receiver and operand, in every store, it completes, returns [None] and
    leaves the store as it was; it raises nothing. *)
Theorem C1_multiply_returns_None (self another : val) (h : heap) :
  Expression.multiply self another h = Returns VNone h.
Proof. reflexivity. Qed.

(** C1, counterexample.  On the empty expression and the operand [5] the
    call does not raise [NotImplementedError] (nor anything else): it
    returns [None]. *)
Lemma C1_multiply_does_not_raise :
  let h := [OExpression (Some 1); OList []] in
  Expression.multiply (VRef 0) (VInt 5) h = Returns VNone h /\
  ~ (exists h', Expression.multiply (VRef 0) (VInt 5) h
                = Raises NotImplementedError h').
Proof.
  split; [reflexivity | intros [h' H]; discriminate H].
Qed.



(** One operand of the kinds [add] expects extends the new list by what
    the operand contributes. *)
Lemma add_step_spec (h : heap) (another : val) (acc contributed : list val) :
  operand_terms h another = Some contributed ->
  Expression.add_step (VRef (length h)) another
    (h ++ [OExpression (Some (length h + 1)); OList acc])
  = Returns tt
      (h ++ [OExpression (Some (length h + 1)); OList (acc ++ contributed)]).
Proof.
  unfold operand_terms. destruct another as [| | | |l]; try discriminate.
  destruct (h !! l) as [[| | |d c|[t|]]|] eqn:Hl; try discriminate.
  - intros [= <-]. do 2 munfold. heap_simpl. reflexivity.
  - destruct (h !! t) as [[items| | | |]|] eqn:Ht; try discriminate.
    intros [= <-]. do 2 munfold. heap_simpl. reflexivity.
Qed.

Lemma add_loop_spec (h : heap) (others : list val) :
  forall acc flat : list val,
    flattened h others = Some flat ->
    Expression.add_loop (VRef (length h)) others
      (h ++ [OExpression (Some (length h + 1)); OList acc])
    = Returns tt
        (h ++ [OExpression (Some (length h + 1)); OList (acc ++ flat)]).
Proof.
  induction others as [|another rest IH]; intros acc flat; cbn [flattened].
  - intros [= <-]. by rewrite app_nil_r.
  - destruct (operand_terms h another) as [contributed|] eqn:Hop; [|done].
    destruct (flattened h rest) as [flat'|] eqn:Hrest; [|done].
    intros [= <-]. cbn [Expression.add_loop]. unfold bind.
    rewrite (add_step_spec _ _ _ _ Hop), (IH _ _ eq_refl).
    by rewrite app_assoc.
Qed.

(** C8.  For every Expression and all operands that are Terms or
    Expressions, [add] returns a new Expression whose term sequence is
    the receiver's terms followed, in argument order, by each Term
    operand and by the terms of each Expression operand in their order;
    nothing is merged. *)
Theorem C8_add_flattens (h : heap) (self terms : loc) (ts : list val)
    (others flat : list val) :
  h !! self = Some (OExpression (Some terms)) ->
  h !! terms = Some (OList ts) ->
  flattened h others = Some flat ->
  Expression.add (VRef self) others h
  = Returns (VRef (length h))
      (h ++ [OExpression (Some (length h + 1)); OList (ts ++ flat)]).
Proof.
  intros Hself Hterms Hflat.
  unfold Expression.add, bind. munfold. heap_simpl.
  by rewrite (add_loop_spec _ _ _ _ Hflat).
Qed.

(** Witness for C8, the example of the specification:
    [Expression([Term('x')]).add(Expression([Term('y'), Term(2)]))] has
    exactly three terms, in the order x, y, 2. *)
Lemma C8_add_flattens_witness :
  returned_expression sum_of_expressions []
  = Some [Some ([("x", 1%Z)], 1%Z); Some ([("y", 1%Z)], 1%Z); Some ([], 2%Z)].
Proof.
  unfold returned_expression.
  change (sum_of_expressions [])
    with (Expression.add (VRef 3) [VRef 10] store_before_sum).
  rewrite (C8_add_flattens store_before_sum 3 4 [VRef 0] [VRef 10]
             [VRef 5; VRef 7] eq_refl eq_refl eq_refl).
  reflexivity.
Defined.

Lemma add_step_frame (h : heap) (another : val) (acc : list val) :
  framed h (Expression.add_step (VRef (length h)) another
              (h ++ [OExpression (Some (length h + 1)); OList acc])).
Proof.
  do 2 munfold.
  destruct another; heap_simpl; try (by eexists).
  repeat (destruct_scrutinee; heap_simpl; try (by eexists)).
Qed.

Lemma add_loop_frame (h : heap) (others : list val) :
  forall acc : list val,
    framed h (Expression.add_loop (VRef (length h)) others
                (h ++ [OExpression (Some (length h + 1)); OList acc])).
Proof.
  induction others as [|another rest IH]; intros acc.
  - cbn. by exists acc.
  - cbn [Expression.add_loop]. unfold bind at 1.
    pose proof (add_step_frame h another acc) as Hstep.
    destruct (Expression.add_step _ _ _) as [[] h1|e h1|];
      [|exact Hstep|exact I].
    destruct Hstep as [acc' ->]. apply IH.
Qed.

Lemma add_frame (h : heap) (self : val) (others : list val) (r : val)
    (h' : heap) :
  Expression.add self others h = Returns r h' ->
  r = VRef (length h) /\
  exists items, h' = h ++ [OExpression (Some (length h + 1)); OList items].
Proof.
  unfold Expression.add. unfold bind at 1.
  destruct (get_terms self h) as [terms h1|e h1|] eqn:Hterms; try discriminate.
  assert (h1 = h) as ->.
  { revert Hterms. munfold. destruct self; try discriminate.
    repeat (destruct_scrutinee; try discriminate); by intros [= _ <-]. }
  unfold bind at 1.
  destruct (Expression.__init__ [VRef terms] h) as [result h1|e h1|] eqn:Hinit;
    try discriminate.
  assert (result = VRef (length h) /\
          exists acc, h1 = h ++ [OExpression (Some (length h + 1)); OList acc])
    as [-> [acc ->]].
  { revert Hinit. munfold. heap_simpl.
    repeat (destruct_scrutinee; heap_simpl; try discriminate);
      intros [= <- <-]; eauto. }
  unfold bind at 1.
  pose proof (add_loop_frame h others acc) as Hloop.
  destruct (Expression.add_loop _ _ _) as [[] h2|e h2|]; try discriminate.
  intros [= <- <-]. done.
Qed.

(** C9.  Whatever the receiver and the operands, when [add] returns,
    every object of the store is as it was before the call (so
    [self.terms] and the term sequence of every operand are unchanged);
    the result is a new Expression object whose [terms] is a new list:
    the only change to the store is the addition of these two objects. *)
Theorem C9_add_does_not_mutate (h : heap) (self : val) (others : list val)
    (r : val) (h' : heap) :
  Expression.add self others h = Returns r h' ->
  (forall l o, h !! l = Some o -> h' !! l = Some o) /\
  (forall v ts, expression_terms h v = Some ts ->
                expression_terms h' v = Some ts) /\
  exists items,
    r = VRef (length h) /\
    h' = h ++ [OExpression (Some (length h + 1)); OList items].
Proof.
  intros Hadd. apply add_frame in Hadd as [-> [items ->]].
  assert (Hold : forall l o, h !! l = Some o ->
            (h ++ [OExpression (Some (length h + 1)); OList items]) !! l
            = Some o).
  { intros l o Hl. by apply lookup_app_l_Some. }
  split; [exact Hold|]. split; [|by exists items].
  intros v ts. unfold expression_terms. destruct v as [| | | |l]; try done.
  destruct (h !! l) as [[| | | |[t|]]|] eqn:Hl; try done.
  destruct (h !! t) as [[ts'| | | |]|] eqn:Ht; try done.
  intros [= <-]. by rewrite (Hold _ _ Hl), (Hold _ _ Ht).
Qed.

(** Witness for C9: after the sum of the specification's example, the
    receiver still has its one term and the operand its two. *)
Lemma C9_add_does_not_mutate_witness :
  let h' := store_before_sum
            ++ [OExpression (Some 13); OList [VRef 0; VRef 5; VRef 7]] in
  expression_terms h' (VRef 3) = Some [VRef 0] /\
  expression_terms h' (VRef 10) = Some [VRef 5; VRef 7].
Proof.
  intros h'.
  destruct (C9_add_does_not_mutate store_before_sum (VRef 3) [VRef 10]
              (VRef 12) h' eq_refl) as (_ & Hterms & _).
  split; apply Hterms; reflexivity.
Defined.

Lemma merge_singleton (m : dict) (s : string) (e : Z) :
  Term.merge m [(s, e)]
  = Some (dict_set s (match dict_get s m with
                      | Some old => (old + e)%Z
                      | None => e
                      end) m).
Proof.
  unfold Term.merge, Term.merge_items, dict_contains. cbn.
  rewrite String.eqb_refl. by destruct (dict_get s m).
Qed.

(** C10.  For every Term [t] and every string [s], [t.add(s)], and hence
    [t + s], returns a new Expression whose term sequence is [t] followed
    by the string [s] itself: the operand is stored as given, no Term is
    built from it.  [t.multiply(s)] on the contrary builds a Term from
    [s] and returns the merged Term. *)
Theorem C10_add_keeps_raw_operand (h : heap) (t d : loc) (m : dict) (c : Z)
    (s : string) :
  h !! t = Some (OTerm (Some d) (Some c)) ->
  h !! d = Some (ODict m) ->
  let h' := h ++ [OTuple [VRef t; VStr s];
                  OExpression (Some (length h + 2));
                  OList [VRef t; VStr s]] in
  Term.add (VRef t) [VStr s] h = Returns (VRef (length h + 1)) h' /\
  py_add (VRef t) (VStr s) h = Returns (VRef (length h + 1)) h' /\
  expression_terms h' (VRef (length h + 1)) = Some [VRef t; VStr s] /\
  (expression_terms h' (VRef (length h + 1)) ≫= (.!! 1)) = Some (VStr s) /\
  returned_term (Term.multiply (VRef t) [VStr s]) h
  = Some (dict_set s (match dict_get s m with
                      | Some old => (old + 1)%Z
                      | None => 1%Z
                      end) m, (c * 1)%Z).
Proof.
  intros Ht Hd h'. subst h'.
  assert (Hadd : Term.add (VRef t) [VStr s] h
                 = Returns (VRef (length h + 1))
                     (h ++ [OTuple [VRef t; VStr s];
                            OExpression (Some (length h + 2));
                            OList [VRef t; VStr s]])).
  { do 2 munfold. heap_simpl. reflexivity. }
  assert (Hview : expression_terms
                    (h ++ [OTuple [VRef t; VStr s];
                           OExpression (Some (length h + 2));
                           OList [VRef t; VStr s]]) (VRef (length h + 1))
                  = Some [VRef t; VStr s]).
  { unfold expression_terms. heap_simpl. reflexivity. }
  split; [exact Hadd|]. split.
  { unfold py_add, Term.__add__, bind. unfold type_of at 1.
    unfold bind, load, ret. rewrite Ht. exact Hadd. }
  split; [exact Hview|]. split; [by rewrite Hview|].
  unfold returned_term. pose proof (merge_singleton m s 1) as Hmerge.
  do 2 munfold. heap_simpl. munfold. heap_simpl.
  unfold Term.merge in Hmerge. cbn in Hmerge. rewrite Hmerge.
  heap_simpl. reflexivity.
Qed.

(** Witness for C10: [x_plus_y = Term('x') + 'y'] of the lesson;
    [x_plus_y.terms[1]] is the string ['y']. *)
Lemma C10_add_keeps_raw_operand_witness :
  exists r h',
    py_add (VRef 0) (VStr "y") store_with_x = Returns r h' /\
    (expression_terms h' r ≫= (.!! 1)) = Some (VStr "y").
Proof.
  destruct (C10_add_keeps_raw_operand store_with_x 0 1 [("x", 1%Z)] 1 "y"
              eq_refl eq_refl) as (_ & Hadd & _ & Hsecond & _).
  eexists _, _. split; [exact Hadd | exact Hsecond].
Defined.

End Expressions.

(** * Further properties of the two classes *)

Ltac destruct_scrutinee :=
  match goal with
  | |- context [match ?x with _ => _ end] =>
      lazymatch x with
      | context [match _ with _ => _ end] => fail
      | _ => destruct x eqn:?
      end
  end.

Section Frames.

Lemma dict_comprehension_pure (pairs : list (val * val)) (acc : dict)
    (h : heap) :
  dict_comprehension pairs acc h = Unmodelled \/
  exists d, dict_comprehension pairs acc h = Returns d h.
Proof.
  revert acc. induction pairs as [|[k v] pairs IH]; intros acc; cbn.
  - right. by eexists.
  - destruct k; auto. destruct v; auto.
Qed.

Lemma get_data_reads (v : val) (h : heap) : same_store h (get_data v h).
Proof.
  munfold. destruct v; cbn; try done.
  repeat (destruct_scrutinee; cbn; try done).
Qed.

Lemma get_coefficient_reads (v : val) (h : heap) :
  same_store h (get_coefficient v h).
Proof.
  munfold. destruct v; cbn; try done.
  repeat (destruct_scrutinee; cbn; try done).
Qed.

Lemma load_dict_reads (l : loc) (h : heap) : same_store h (load_dict l h).
Proof. munfold. repeat (destruct_scrutinee; cbn; try done). Qed.

Lemma creates_same (h : heap) (o : outcome val) :
  same_store h o -> (forall v h', o <> Returns v h') -> creates h o.
Proof.
  destruct o as [v h'| |]; cbn; intros Hs Hr; [by destruct (Hr v h')| |done].
  subst. split; [|done]. exists []. by rewrite app_nil_r.
Qed.

End Frames.

Ltac pure_comprehension :=
  match goal with
  | |- context [dict_comprehension ?p ?a ?H] =>
      let d := fresh "d" in
      destruct (dict_comprehension_pure p a H) as [-> | [d ->]]
  end.

Ltac frame_step :=
  first [ pure_comprehension | destruct_scrutinee ]; heap_simpl.

Ltac read_step H :=
  unfold bind at 1;
  let R := fresh "R" in
  pose proof H as R;
  match type of R with
  | same_store ?h ?c =>
      destruct c as [? ?|? ?|]; cbn in R; [subst | subst | ]
  end.

Section MoreConstruction.

Lemma init_creates (args : list val) (h : heap) :
  creates h (Term.__init__ args h).
Proof.
  unfold creates. do 3 munfold. heap_simpl.
  repeat (frame_step;
          try (split; [by eexists
                      | cbn; rewrite ?length_app; cbn; try lia; done])).
Qed.


(** X2.  The copy constructor [Term(t)] builds a new Term with the
    coefficient of [t] and a new dictionary holding the entries of
    [t.data]: the copy shares nothing with [t], and further arguments
    are ignored. *)
Theorem X2_copy_constructor (h : heap) (t d : loc) (m : dict) (c : Z)
    (rest : list val) :
  h !! t = Some (OTerm (Some d) (Some c)) ->
  h !! d = Some (ODict m) ->
  Term.__init__ (VRef t :: rest) h
  = Returns (VRef (length h))
      (h ++ [OTerm (Some (length h + 1)) (Some c); ODict m]) /\
  d <> length h + 1.
Proof.
  intros Ht Hd. split.
  - do 2 munfold. heap_simpl. reflexivity.
  - apply lookup_lt_Some in Hd. lia.
Qed.

(** Witness for X2: a copy of [Term('x')]. *)
Lemma X2_copy_constructor_witness :
  Term.__init__ [VRef 0] store_with_x
  = Returns (VRef 2)
      (store_with_x ++ [OTerm (Some 3) (Some 1%Z); ODict [("x", 1%Z)]]) /\
  1 <> 3.
Proof.
  exact (X2_copy_constructor store_with_x 0 1 [("x", 1%Z)] 1 [] eq_refl eq_refl).
Defined.

(** X3.  The dictionary form [Term(d)] / [Term(d, c)] stores the
    dictionary it is given, not a copy: the only new object is the Term,
    and whatever is later written into [d] is what the Term holds. *)
Theorem X3_dictionary_form_shares (h : heap) (d : loc) (m : dict)
    (coefficient : option Z) :
  h !! d = Some (ODict m) ->
  let c := default 1%Z coefficient in
  let h' := h ++ [OTerm (Some d) (Some c)] in
  Term.__init__ (VRef d :: optional_int coefficient) h
  = Returns (VRef (length h)) h' /\
  forall m', term_view (<[d := ODict m']> h') (VRef (length h)) = Some (m', c).
Proof.
  intros Hd c h'. subst c h'. split.
  - destruct coefficient; do 2 munfold; heap_simpl; reflexivity.
  - intros m'. pose proof (lookup_lt_Some _ _ _ Hd) as Hlt.
    assert (Hlen : length (<[d := ODict m']> h) = length h)
      by apply length_insert.
    unfold term_view. rewrite insert_app_l by done.
    rewrite lookup_app_r by lia. rewrite Hlen, Nat.sub_diag. cbn.
    rewrite lookup_app_l by lia. by rewrite list_lookup_insert_eq.
Qed.

(** Witness for X3: [Term({'x': 1}, 5)]. *)
Lemma X3_dictionary_form_shares_witness :
  Term.__init__ [VRef 0; VInt 5] [ODict [("x", 1%Z)]]
  = Returns (VRef 1) [ODict [("x", 1%Z)]; OTerm (Some 0) (Some 5%Z)] /\
  forall m',
    term_view (<[0 := ODict m']> [ODict [("x", 1%Z)]; OTerm (Some 0) (Some 5%Z)])
      (VRef 1)
    = Some (m', 5%Z).
Proof.
  exact (X3_dictionary_form_shares [ODict [("x", 1%Z)]] 0 [("x", 1%Z)]
           (Some 5%Z) eq_refl).
Defined.

(** X4.  The symbol form: [Term(s)], [Term(s, c)] and [Term(s, c, p)]
    build the Term with mapping [{s: p}] and coefficient [c], both 1 by
    default (the coefficient comes before the power); with more than
    three arguments construction raises [TypeError]. *)
Theorem X4_symbol_form (h : heap) (s : string) (c p : Z) (a b e : val)
    (rest : list val) :
  let built c p :=
    Returns (VRef (length h))
      (h ++ [OTerm (Some (length h + 1)) (Some c); ODict [(s, p)]]) in
  Term.__init__ [VStr s] h = built 1%Z 1%Z /\
  Term.__init__ [VStr s; VInt c] h = built c 1%Z /\
  Term.__init__ [VStr s; VInt c; VInt p] h = built c p /\
  Term.__init__ (VStr s :: a :: b :: e :: rest) h
  = Raises TypeError (h ++ [OTerm None None]).
Proof.
  repeat split; do 2 munfold; heap_simpl; reflexivity.
Qed.

(** X5.  [Term()] raises [IndexError]; a leading argument that is [None],
    a float or an Expression (alone or followed by powers) reaches the
    list form and raises [TypeError].  In both cases the objects that
    existed are untouched. *)
Theorem X5_unsupported_arguments (h : heap) (lead : val) (rest : list val) :
  unsupported_lead h lead = true ->
  length rest <= 1 ->
  Term.__init__ [] h = Raises IndexError (h ++ [OTerm None None]) /\
  Term.__init__ (lead :: rest) h
  = Raises TypeError (h ++ [OTerm None (Some 1%Z)]).
Proof.
  intros Hlead Hrest. split; [reflexivity|].
  destruct rest as [|powers [|? ?]]; [| |cbn in Hrest; lia];
    unfold unsupported_lead in Hlead;
    destruct lead as [| | | |l]; try discriminate;
    try (do 2 munfold; heap_simpl; reflexivity);
    destruct (h !! l) as [[| | | |?]|] eqn:Hl; try discriminate;
    do 2 munfold; heap_simpl; reflexivity.
Qed.

(** Witness for X5: [Term(None)]. *)
Lemma X5_unsupported_arguments_witness :
  Term.__init__ [] [] = Raises IndexError [OTerm None None] /\
  Term.__init__ [VNone] [] = Raises TypeError [OTerm None (Some 1%Z)].
Proof.
  apply (X5_unsupported_arguments [] VNone []); [reflexivity | cbn; lia].
Defined.

(** X6.  Symbols given without powers are all dropped: for every list or
    tuple, whatever it holds, [Term(symbols)] is the constant 1 with an
    empty mapping, because [zip] pairs the symbols with the default empty
    list of powers. *)
Theorem X6_symbols_without_powers (h : heap) (l : loc) (items : list val) :
  h !! l = Some (OList items) \/ h !! l = Some (OTuple items) ->
  Term.__init__ [VRef l] h
  = Returns (VRef (length h))
      (h ++ [OTerm (Some (length h + 1)) (Some 1%Z); ODict []]).
Proof.
  intros [Hl|Hl]; do 2 munfold; heap_simpl;
    (replace (py_zip items []) with (@nil (val * val)) by (by destruct items));
    heap_simpl; reflexivity.
Qed.

(** Witness for X6: [Term(['x', 'y'])]. *)
Lemma X6_symbols_without_powers_witness :
  Term.__init__ [VRef 0] [OList [VStr "x"; VStr "y"]]
  = Returns (VRef 1)
      [OList [VStr "x"; VStr "y"]; OTerm (Some 2) (Some 1%Z); ODict []].
Proof.
  exact (X6_symbols_without_powers [OList [VStr "x"; VStr "y"]] 0
           [VStr "x"; VStr "y"] (or_introl eq_refl)).
Defined.

End MoreConstruction.

Section MoreDictionaries.

Lemma fold_set_get (pairs : list (string * Z)) :
  forall (acc : dict) (k : string),
    dict_get k (fold_left (fun acc p => dict_set (fst p) (snd p) acc) pairs acc)
    = match last_power k pairs with
      | Some v => Some v
      | None => dict_get k acc
      end.
Proof.
  induction pairs as [|[k' v] rest IH]; intros acc k; cbn; [done|].
  rewrite IH. destruct (last_power k rest); [done|].
  destruct (String.eqb k k') eqn:E.
  - apply String.eqb_eq in E. subst. apply dict_get_set_eq.
  - apply String.eqb_neq in E. by apply dict_get_set_ne.
Qed.

Lemma fold_set_unique (pairs : list (string * Z)) :
  forall acc : dict,
    unique_keys acc ->
    unique_keys
      (fold_left (fun acc p => dict_set (fst p) (snd p) acc) pairs acc).
Proof.
  induction pairs as [|[k v] rest IH]; intros acc Hu; cbn; [done|].
  by apply IH, unique_keys_set.
Qed.

(** X7.  The mapping the list form builds is a well-formed dictionary
    (no symbol occurs twice in it), and a symbol repeated in the list of
    symbols gets the power paired with its last occurrence. *)
Theorem X7_list_form_last_power_wins (symbols : list string)
    (powers : list Z) (h : heap) (ls lp : loc) :
  h !! ls = Some (OList (map VStr symbols)) ->
  h !! lp = Some (OList (map VInt powers)) ->
  exists m,
    returned_term (Term.__init__ [VRef ls; VRef lp]) h = Some (m, 1%Z) /\
    unique_keys m /\
    forall k, dict_get k m = last_power k (combine symbols powers).
Proof.
  intros Hs Hp.
  exists (fold_left (fun acc p => dict_set (fst p) (snd p) acc)
            (combine symbols powers) []).
  split; [|split].
  - unfold returned_term. do 2 munfold. heap_simpl.
    rewrite dict_comprehension_typed. heap_simpl.
    unfold term_view. heap_simpl. reflexivity.
  - by apply fold_set_unique.
  - intros k. rewrite fold_set_get. by destruct (last_power _ _).
Qed.

(** Witness for X7: [Term(['x', 'y', 'x'], [1, 2, 3])] is [{x: 3, y: 2}]. *)
Lemma X7_list_form_last_power_wins_witness :
  exists m,
    returned_term (Term.__init__ [VRef 0; VRef 1])
      [OList [VStr "x"; VStr "y"; VStr "x"]; OList [VInt 1; VInt 2; VInt 3]]
    = Some (m, 1%Z) /\
    unique_keys m /\
    forall k, dict_get k m
              = last_power k [("x", 1%Z); ("y", 2%Z); ("x", 3%Z)].
Proof.
  exact (X7_list_form_last_power_wins ["x"; "y"; "x"] [1%Z; 2%Z; 3%Z]
           [OList [VStr "x"; VStr "y"; VStr "x"];
            OList [VInt 1; VInt 2; VInt 3]] 0 1 eq_refl eq_refl).
Defined.

Lemma dict_contains_set (k k' : string) (v : Z) (d : dict) :
  dict_contains k' (dict_set k v d)
  = (String.eqb k' k || dict_contains k' d)%bool.
Proof.
  unfold dict_contains. destruct (String.eqb k' k) eqn:E.
  - apply String.eqb_eq in E. subst. by rewrite dict_get_set_eq.
  - apply String.eqb_neq in E. rewrite dict_get_set_ne by congruence. done.
Qed.

Lemma keys_set (k : string) (v : Z) (d : dict) :
  keys (dict_set k v d) = if dict_contains k d then keys d else keys d ++ [k].
Proof.
  unfold dict_contains, keys.
  induction d as [|[k' v'] d IH]; cbn; [done|].
  destruct (String.eqb k k') eqn:E; cbn.
  - apply String.eqb_eq in E. by subst.
  - rewrite IH. by destruct (dict_get k d).
Qed.

Lemma merge_items_keys (items : dict) :
  forall result_data another_data merged : dict,
    unique_keys items ->
    Term.merge_items result_data another_data items = Some merged ->
    keys merged
    = keys result_data
      ++ List.filter (fun k => negb (dict_contains k result_data)) (keys items).
Proof.
  induction items as [|[s e] rest IH]; intros r a merged Hu; cbn.
  - intros [= <-]. by rewrite app_nil_r.
  - destruct Hu as [Hs Hrest].
    assert (Hfilter : forall v,
      List.filter (fun k => negb (dict_contains k (dict_set s v r))) (keys rest)
      = List.filter (fun k => negb (dict_contains k r)) (keys rest)).
    { intros v. apply List.filter_ext_in. intros k Hk.
      rewrite dict_contains_set. destruct (String.eqb k s) eqn:E; [|done].
      apply String.eqb_eq in E. subst k. exfalso.
      clear -Hs Hk. induction rest as [|[k' v'] rest IH]; [done|].
      cbn in Hs, Hk. destruct (String.eqb s k') eqn:E; [done|].
      apply String.eqb_neq in E. destruct Hk as [Hk|Hk]; [congruence|auto]. }
    destruct (dict_contains s r) eqn:Hin.
    + destruct (dict_get s r) as [old|]; [|done].
      destruct (dict_get s a) as [e'|]; [|done].
      intros Hm. rewrite (IH _ _ _ Hrest Hm), Hfilter, keys_set, Hin. done.
    + destruct (dict_get s a) as [e'|]; [|done].
      intros Hm. rewrite (IH _ _ _ Hrest Hm), Hfilter, keys_set, Hin.
      cbn. by rewrite <- app_assoc.
Qed.

(** X8.  The merge of [Term.multiply] keeps the receiver's symbols in
    their order and appends the operand's symbols that the receiver does
    not have, in the operand's order; this is the order in which the
    product is rendered. *)
Theorem X8_merge_symbol_order (m1 m2 : dict) :
  unique_keys m2 ->
  exists merged,
    Term.merge m1 m2 = Some merged /\
    keys merged
    = keys m1 ++ List.filter (fun k => negb (dict_contains k m1)) (keys m2).
Proof.
  intros Hu. destruct (merge_spec m1 m2 Hu) as (merged & Hm & _).
  exists merged. split; [done|]. by apply (merge_items_keys m2 m1 m2).
Qed.

(** Witness for X8: [{y: 1, x: 2}] merged with [{x: 1, z: 1, y: 4}]. *)
Lemma X8_merge_symbol_order_witness :
  exists merged,
    Term.merge [("y", 1%Z); ("x", 2%Z)] [("x", 1%Z); ("z", 1%Z); ("y", 4%Z)]
    = Some merged /\
    keys merged = ["y"; "x"; "z"].
Proof.
  apply (X8_merge_symbol_order [("y", 1%Z); ("x", 2%Z)]
           [("x", 1%Z); ("z", 1%Z); ("y", 4%Z)]).
  cbn. auto.
Defined.

End MoreDictionaries.

Section MoreMultiplication.

Lemma multiply_loop_grows (h : heap) (others : list val) :
  forall (c : Z) (t : list obj),
    grows h (Term.multiply_loop (length h) c others (h ++ t)).
Proof.
  induction others as [|other rest IH]; intros c t.
  - cbn. by exists t.
  - cbn [Term.multiply_loop]. unfold bind at 1.
    destruct (init_creates [other] (h ++ t)) as [Hg _].
    destruct (Term.__init__ [other] (h ++ t)) as [another h1|e h1|];
      cbn in Hg;
      [|destruct Hg as [news ->]; rewrite <- app_assoc; by eexists|done].
    destruct Hg as [news ->]. rewrite <- app_assoc.
    generalize (t ++ news). clear t news. intros t.
    munfold.
    repeat (destruct_scrutinee; heap_simpl; try (by eexists); try apply IH).
Qed.

Lemma multiply_creates (self : val) (others : list val) (h : heap) :
  creates h (Term.multiply self others h).
Proof.
  unfold Term.multiply.
  read_step (get_data_reads self h); [|by apply creates_same|done].
  read_step (load_dict_reads a h); [|by apply creates_same|done].
  unfold bind at 1. unfold alloc at 1.
  read_step (get_coefficient_reads self (h ++ [ODict a0]));
    [|split; [by eexists|done]|done].
  unfold bind at 1.
  pose proof (multiply_loop_grows h others a1 [ODict a0]) as Hloop.
  destruct (Term.multiply_loop _ _ _ _) as [c h1|e h1|]; cbn in Hloop;
    [|split; [done|done]|done].
  destruct Hloop as [news ->].
  destruct (init_creates [VRef (length h); VInt c] (h ++ news)) as [Hg Hn].
  destruct (Term.__init__ _ _) as [[| | | |l] h2|e h2|]; cbn in Hg, Hn;
    try done.
  - destruct Hg as [news' ->]. split.
    + exists (news ++ news'). by rewrite app_assoc.
    + cbn. rewrite length_app in Hn. lia.
  - destruct Hg as [news' ->]. split; [|done].
    exists (news ++ news'). by rewrite app_assoc.
Qed.

(** X9.  [Term.multiply], whatever the receiver and the operands, modifies
    no object that exists already (neither the receiver, nor an operand,
    nor a dictionary of theirs), whether it returns or raises; the
    product it returns is a new object. *)
Theorem X9_multiply_only_adds (self : val) (others : list val) (h : heap) :
  creates h (Term.multiply self others h).
Proof. apply multiply_creates. Qed.

Lemma py_zip_nil_r (a : list val) : py_zip a [] = [].
Proof. by destruct a. Qed.

Lemma multiply_step (h : heap) (cur cur' : dict) (tail : list obj) (o : val)
    (m : dict) (c k : Z) (rest : list val) :
  operand_view h o = Some (m, c) ->
  Term.merge cur m = Some cur' ->
  exists news,
    Term.multiply_loop (length h) k (o :: rest) (h ++ ODict cur :: tail)
    = Term.multiply_loop (length h) (k * c) rest
        (h ++ ODict cur' :: tail ++ news).
Proof.
  intros Hview Hmerge. unfold operand_view in Hview.
  destruct o as [|z| |s|l]; try discriminate.
  - injection Hview as <- <-. cbn in Hmerge. injection Hmerge as <-.
    cbn [Term.multiply_loop]. do 3 munfold. heap_simpl.
    eexists. reflexivity.
  - injection Hview as <- <-. unfold Term.merge in Hmerge. cbn in Hmerge.
    cbn [Term.multiply_loop]. do 3 munfold. heap_simpl.
    rewrite Hmerge. heap_simpl. eexists. reflexivity.
  - destruct (h !! l) as [[items|items|m'|[d|] [c'|]|]|] eqn:Hl;
      try discriminate.
    + injection Hview as <- <-. cbn in Hmerge. injection Hmerge as <-.
      cbn [Term.multiply_loop]. do 3 munfold. heap_simpl.
      rewrite py_zip_nil_r. heap_simpl. eexists. reflexivity.
    + injection Hview as <- <-. cbn in Hmerge. injection Hmerge as <-.
      cbn [Term.multiply_loop]. do 3 munfold. heap_simpl.
      rewrite py_zip_nil_r. heap_simpl. eexists. reflexivity.
    + injection Hview as <- <-.
      cbn [Term.multiply_loop]. do 3 munfold. heap_simpl.
      rewrite Hmerge. heap_simpl.
      exists [OTerm (Some l) (Some 1%Z)]. reflexivity.
    + destruct (h !! d) as [[| |m'| |]|] eqn:Hd; try discriminate.
      injection Hview as <- <-.
      cbn [Term.multiply_loop]. do 3 munfold. heap_simpl.
      rewrite Hmerge. heap_simpl. eexists. reflexivity.
Qed.

Lemma multiply_loop_spec (h : heap) (others : list val) :
  forall (views : list (dict * Z)) (tail : list obj) (cur m : dict) (k c : Z),
    operand_views h others = Some views ->
    product_view (cur, k) views = Some (m, c) ->
    exists news,
      Term.multiply_loop (length h) k others (h ++ ODict cur :: tail)
      = Returns c (h ++ ODict m :: tail ++ news).
Proof.
  induction others as [|o rest IH]; intros views tail cur m k c;
    cbn [operand_views].
  - intros [= <-]. cbn. intros [= <- <-]. exists []. by rewrite app_nil_r.
  - destruct (operand_view h o) as [[mo co]|] eqn:Ho; [|done].
    destruct (operand_views h rest) as [vs|] eqn:Hrest; [|done].
    intros [= <-]. cbn [product_view fst snd].
    destruct (Term.merge cur mo) as [cur'|] eqn:Hm; [|done].
    intros Hprod.
    destruct (multiply_step h cur cur' tail o mo co k rest Ho Hm) as [news ->].
    destruct (IH vs (tail ++ news) cur' m (k * co)%Z c eq_refl Hprod)
      as [news' ->].
    exists (news ++ news'). by rewrite app_assoc.
Qed.

Lemma multiply_spec (h : heap) (self : val) (others : list val)
    (views : list (dict * Z)) (m0 m : dict) (c0 c : Z) :
  term_view h self = Some (m0, c0) ->
  operand_views h others = Some views ->
  product_view (m0, c0) views = Some (m, c) ->
  returned_term (Term.multiply self others) h = Some (m, c).
Proof.
  intros Hself Hviews Hprod. unfold term_view in Hself.
  destruct self as [| | | |l]; try discriminate.
  destruct (h !! l) as [[| | |[d|] [c'|]|]|] eqn:Hl; try discriminate.
  destruct (h !! d) as [[| |m'| |]|] eqn:Hd; try discriminate.
  injection Hself as <- <-.
  unfold returned_term, Term.multiply. munfold. heap_simpl.
  destruct (multiply_loop_spec h others views [] m' m c' c Hviews Hprod)
    as [news Hloop].
  rewrite Hloop. cbn [app]. do 3 munfold. heap_simpl.
  unfold term_view. heap_simpl. reflexivity.
Qed.

(** X10.  The product of a Term by any number of operands, each a Term,
    an int, a string, a dictionary or a list, is the Term obtained by
    merging into the receiver's monomial the monomial of each operand,
    converted by [Term], in argument order, and multiplying the
    coefficients. *)
Theorem X10_multiply_many (h : heap) (self : val) (others : list val)
    (views : list (dict * Z)) (m0 m : dict) (c0 c : Z) :
  term_view h self = Some (m0, c0) ->
  operand_views h others = Some views ->
  product_view (m0, c0) views = Some (m, c) ->
  returned_term (Term.multiply self others) h = Some (m, c).
Proof. apply multiply_spec. Qed.

(** Witness for X10: [Term(5).multiply(Term('x'), Term('x'), Term('y'))]
    of the lesson is [5*x^2*y]. *)
Lemma X10_multiply_many_witness :
  returned_term (Term.multiply (VRef 0) [VRef 2; VRef 2; VRef 4])
    store_of_factors
  = Some ([("x", 2%Z); ("y", 1%Z)], 5%Z).
Proof.
  exact (X10_multiply_many store_of_factors (VRef 0) [VRef 2; VRef 2; VRef 4]
           [([("x", 1%Z)], 1%Z); ([("x", 1%Z)], 1%Z); ([("y", 1%Z)], 1%Z)]
           [] [("x", 2%Z); ("y", 1%Z)] 5 5 eq_refl eq_refl eq_refl).
Defined.

Lemma operand_view_grows (h news : heap) (o : val) (v : dict * Z) :
  operand_view h o = Some v -> operand_view (h ++ news) o = Some v.
Proof.
  unfold operand_view. destruct o as [| | | |l]; try done.
  destruct (h !! l) as [[| | |[d|] [c|]|]|] eqn:Hl; try done;
    rewrite (lookup_app_l_Some _ _ _ _ Hl); try done.
  destruct (h !! d) as [[| | | |]|] eqn:Hd; try done.
  by rewrite (lookup_app_l_Some _ _ _ _ Hd).
Qed.

Lemma operand_views_grows (h news : heap) (others : list val) :
  forall views,
    operand_views h others = Some views ->
    operand_views (h ++ news) others = Some views.
Proof.
  induction others as [|o rest IH]; intros views; cbn; [done|].
  destruct (operand_view h o) as [v|] eqn:Ho; [|done].
  destruct (operand_views h rest) as [vs|] eqn:Hrest; [|done].
  intros [= <-]. by rewrite (operand_view_grows _ _ _ _ Ho), (IH _ eq_refl).
Qed.

Lemma operand_views_app (h : heap) (xs ys : list val) :
  forall vx vy,
    operand_views h xs = Some vx ->
    operand_views h ys = Some vy ->
    operand_views h (xs ++ ys) = Some (vx ++ vy).
Proof.
  induction xs as [|o rest IH]; intros vx vy; cbn.
  - by intros [= <-].
  - destruct (operand_view h o) as [v|]; [|done].
    destruct (operand_views h rest) as [vs|] eqn:Hrest; [|done].
    intros [= <-] Hy. by rewrite (IH _ _ eq_refl Hy).
Qed.

Lemma product_view_app (vx vy : list (dict * Z)) :
  forall acc r,
    product_view acc (vx ++ vy) = Some r ->
    exists mid, product_view acc vx = Some mid /\ product_view mid vy = Some r.
Proof.
  induction vx as [|[m c] rest IH]; intros acc r; cbn.
  - intros H. by exists acc.
  - destruct (Term.merge acc.1 m) as [merged|]; [|done]. apply IH.
Qed.

(** X11.  Multiplying by several operands at once is multiplying by them
    one group after the other: [t.multiply(a.., b..)] and
    [t.multiply(a..).multiply(b..)] are Terms with the same monomial and
    the same coefficient. *)
Theorem X11_multiply_composes (h : heap) (self : val) (xs ys : list val)
    (vx vy : list (dict * Z)) (m0 m : dict) (c0 c : Z) :
  term_view h self = Some (m0, c0) ->
  operand_views h xs = Some vx ->
  operand_views h ys = Some vy ->
  product_view (m0, c0) (vx ++ vy) = Some (m, c) ->
  returned_term (Term.multiply self (xs ++ ys)) h = Some (m, c) /\
  returned_term (let* r := Term.multiply self xs in Term.multiply r ys) h
  = Some (m, c).
Proof.
  intros Hself Hx Hy Hprod. split.
  - eapply multiply_spec; [done| |done]. by apply operand_views_app.
  - destruct (product_view_app _ _ _ _ Hprod) as ([m1 c1] & Hp1 & Hp2).
    pose proof (multiply_spec h self xs vx m0 m1 c0 c1 Hself Hx Hp1) as H1.
    unfold returned_term in H1 |- *. unfold bind.
    destruct (multiply_creates self xs h) as [Hg _].
    destruct (Term.multiply self xs h) as [r h1|e h1|]; [|done..].
    destruct Hg as [news ->].
    apply (multiply_spec (h ++ news) r ys vy m1 m c1 c H1); [|done].
    by apply operand_views_grows.
Qed.

(** Witness for X11: [Term(5).multiply(x, x, y)] against
    [Term(5).multiply(x).multiply(x, y)]. *)
Lemma X11_multiply_composes_witness :
  returned_term (Term.multiply (VRef 0) ([VRef 2] ++ [VRef 2; VRef 4]))
    store_of_factors
  = Some ([("x", 2%Z); ("y", 1%Z)], 5%Z) /\
  returned_term
    (let* r := Term.multiply (VRef 0) [VRef 2] in
     Term.multiply r [VRef 2; VRef 4]) store_of_factors
  = Some ([("x", 2%Z); ("y", 1%Z)], 5%Z).
Proof.
  exact (X11_multiply_composes store_of_factors (VRef 0) [VRef 2]
           [VRef 2; VRef 4] [([("x", 1%Z)], 1%Z)]
           [([("x", 1%Z)], 1%Z); ([("y", 1%Z)], 1%Z)]
           [] [("x", 2%Z); ("y", 1%Z)] 5 5 eq_refl eq_refl eq_refl eq_refl).
Defined.

(** X12.  With no operand, [multiply] returns a copy of the receiver: a
    new Term with the same coefficient and a new dictionary with the same
    entries. *)
Theorem X12_multiply_by_nothing_copies (h : heap) (t d : loc) (m : dict)
    (c : Z) :
  h !! t = Some (OTerm (Some d) (Some c)) ->
  h !! d = Some (ODict m) ->
  Term.multiply (VRef t) [] h
  = Returns (VRef (length h + 1))
      (h ++ [ODict m; OTerm (Some (length h)) (Some c)]) /\
  d <> length h.
Proof.
  intros Ht Hd. split.
  - do 3 munfold. heap_simpl. reflexivity.
  - apply lookup_lt_Some in Hd. lia.
Qed.

(** Witness for X12: [Term('x').multiply()]. *)
Lemma X12_multiply_by_nothing_copies_witness :
  Term.multiply (VRef 0) [] store_with_x
  = Returns (VRef 3)
      (store_with_x ++ [ODict [("x", 1%Z)]; OTerm (Some 2) (Some 1%Z)]) /\
  1 <> 2.
Proof.
  exact (X12_multiply_by_nothing_copies store_with_x 0 1 [("x", 1%Z)] 1
           eq_refl eq_refl).
Defined.

Lemma type_of_term (h : heap) (t : loc) (d : option loc) (c : option Z) :
  h !! t = Some (OTerm d c) -> type_of (VRef t) h = Returns TTerm h.
Proof. intros Ht. unfold type_of, bind, load, ret. by rewrite Ht. Qed.

(** X13.  Multiplying a Term by an int, on either side, scales the
    coefficient and leaves the monomial as it is: [t * n] and [n * t]
    both hold the mapping of [t] and the coefficient [c * n]. *)
Theorem X13_scalar_product (h : heap) (t d : loc) (m : dict) (c n : Z) :
  h !! t = Some (OTerm (Some d) (Some c)) ->
  h !! d = Some (ODict m) ->
  returned_term (py_mul (VRef t) (VInt n)) h = Some (m, (c * n)%Z) /\
  returned_term (py_mul (VInt n) (VRef t)) h = Some (m, (c * n)%Z).
Proof.
  intros Ht Hd.
  assert (Hview : term_view h (VRef t) = Some (m, c)).
  { unfold term_view. by rewrite Ht, Hd. }
  assert (Hmul : returned_term (Term.multiply (VRef t) [VInt n]) h
                 = Some (m, (c * n)%Z)).
  { by apply (multiply_spec h (VRef t) [VInt n] [([], n)] m m c (c * n)%Z). }
  split.
  - unfold returned_term, py_mul, bind.
    rewrite (type_of_term _ _ _ _ Ht). exact Hmul.
  - unfold returned_term, py_mul, bind.
    change (type_of (VInt n) h) with (Returns TInt h). cbv beta iota.
    rewrite (type_of_term _ _ _ _ Ht). exact Hmul.
Qed.

(** Witness for X13: [Term('x') * 7] and [7 * Term('x')]. *)
Lemma X13_scalar_product_witness :
  returned_term (py_mul (VRef 0) (VInt 7)) store_with_x
  = Some ([("x", 1%Z)], 7%Z) /\
  returned_term (py_mul (VInt 7) (VRef 0)) store_with_x
  = Some ([("x", 1%Z)], 7%Z).
Proof.
  exact (X13_scalar_product store_with_x 0 1 [("x", 1%Z)] 1 7 eq_refl eq_refl).
Defined.

Lemma term_view_operand (h : heap) (t : val) (m : dict) (c : Z) :
  term_view h t = Some (m, c) -> operand_view h t = Some (m, c).
Proof.
  unfold term_view, operand_view. destruct t as [| | | |l]; try done.
  destruct (h !! l) as [[| | |[d|] [c'|]|]|]; done.
Qed.

(** X14.  The product of two Terms does not depend on their order, up to
    the order of the symbols: [t1.multiply(t2)] and [t2.multiply(t1)]
    have the same coefficient and monomials that are equal as mappings. *)
Theorem X14_product_commutes (h : heap) (t1 t2 : val) (m1 m2 : dict)
    (c1 c2 : Z) :
  term_view h t1 = Some (m1, c1) ->
  term_view h t2 = Some (m2, c2) ->
  unique_keys m1 ->
  unique_keys m2 ->
  exists m12 m21 c,
    returned_term (Term.multiply t1 [t2]) h = Some (m12, c) /\
    returned_term (Term.multiply t2 [t1]) h = Some (m21, c) /\
    dict_equiv m12 m21.
Proof.
  intros Hv1 Hv2 Hu1 Hu2.
  assert (Hop : forall t m c, term_view h t = Some (m, c) ->
                              operand_views h [t] = Some [(m, c)]).
  { intros t m c Hv. cbn [operand_views].
    by rewrite (term_view_operand _ _ _ _ Hv). }
  destruct (merge_spec m1 m2 Hu2) as (m12 & E12 & G12 & _).
  destruct (merge_spec m2 m1 Hu1) as (m21 & E21 & G21 & _).
  exists m12, m21, (c1 * c2)%Z. split; [|split].
  - apply (multiply_spec h t1 [t2] [(m2, c2)] m1 m12 c1 _ Hv1 (Hop _ _ _ Hv2)).
    cbn. by rewrite E12.
  - apply (multiply_spec h t2 [t1] [(m1, c1)] m2 m21 c2 _ Hv2 (Hop _ _ _ Hv1)).
    cbn. rewrite E21. f_equal. f_equal. lia.
  - intros k. rewrite G12, G21. apply add_opt_comm.
Qed.

(** Witness for X14: [Term('x').multiply(Term('y'))] has mapping
    [{x: 1, y: 1}], [Term('y').multiply(Term('x'))] has [{y: 1, x: 1}]. *)
Lemma X14_product_commutes_witness :
  exists m12 m21 c,
    returned_term (Term.multiply (VRef 2) [VRef 4]) store_of_factors
    = Some (m12, c) /\
    returned_term (Term.multiply (VRef 4) [VRef 2]) store_of_factors
    = Some (m21, c) /\
    dict_equiv m12 m21.
Proof.
  apply (X14_product_commutes store_of_factors (VRef 2) (VRef 4)
           [("x", 1%Z)] [("y", 1%Z)] 1 1); cbn; auto.
Defined.

End MoreMultiplication.

Section MoreExpressions.

Lemma add_flattens (h : heap) (self terms : loc) (ts : list val)
    (others flat : list val) :
  h !! self = Some (OExpression (Some terms)) ->
  h !! terms = Some (OList ts) ->
  flattened h others = Some flat ->
  Expression.add (VRef self) others h
  = Returns (VRef (length h))
      (h ++ [OExpression (Some (length h + 1)); OList (ts ++ flat)]).
Proof.
  intros Hself Hterms Hflat.
  unfold Expression.add, bind. munfold. heap_simpl.
  by rewrite (add_loop_spec _ _ _ _ Hflat).
Qed.

(** X15.  The first version of [Expression] keeps the list it is given,
    so a later change of that list changes the Expression; the
    redefinition copies the list, and a later change of the list passed
    leaves the Expression as it was. *)
Theorem X15_expression_copies_its_terms (h : heap) (l : loc)
    (items : list val) :
  h !! l = Some (OList items) ->
  let h1 := h ++ [OExpression (Some l)] in
  let h2 := h ++ [OExpression (Some (length h + 1)); OList items] in
  first_Expression__init__ [VRef l] h = Returns (VRef (length h)) h1 /\
  Expression.__init__ [VRef l] h = Returns (VRef (length h)) h2 /\
  forall items',
    expression_terms (<[l := OList items']> h1) (VRef (length h)) = Some items' /\
    expression_terms (<[l := OList items']> h2) (VRef (length h)) = Some items.
Proof.
  intros Hl h1 h2. subst h1 h2.
  pose proof (lookup_lt_Some _ _ _ Hl) as Hlt.
  split; [|split].
  - unfold first_Expression__init__. munfold. heap_simpl. reflexivity.
  - do 2 munfold. heap_simpl. reflexivity.
  - intros items'.
    assert (Hlen : length (<[l := OList items']> h) = length h)
      by apply length_insert.
    unfold expression_terms. rewrite !insert_app_l by done.
    rewrite !lookup_app_r by lia. rewrite !Hlen, !Nat.sub_diag. cbn.
    rewrite lookup_app_l by lia. rewrite list_lookup_insert_eq by done.
    split; [done|].
    rewrite lookup_app_r by lia. rewrite Hlen.
    replace (length h + 1 - length h) with 1 by lia. done.
Qed.

(** X16.  Adding a Term on the right of a value that is neither a Term nor
    an Expression (an int, a string, ...) calls the reflected method: the
    sum is the very Expression of the operands exchanged, in which the
    Term comes first and the left operand second. *)
Theorem X16_reflected_sum_puts_term_first (h : heap) (t : loc)
    (d : option loc) (c : option Z) (a : val) (ta : pytype) :
  h !! t = Some (OTerm d c) ->
  type_of a h = Returns ta h ->
  ta <> TTerm -> ta <> TExpression ->
  let h' := h ++ [OTuple [VRef t; a]; OExpression (Some (length h + 2));
                  OList [VRef t; a]] in
  py_add a (VRef t) h = Returns (VRef (length h + 1)) h' /\
  py_add (VRef t) a h = Returns (VRef (length h + 1)) h' /\
  expression_terms h' (VRef (length h + 1)) = Some [VRef t; a].
Proof.
  intros Ht Ha Hta Hta' h'. subst h'.
  assert (Hty : type_of (VRef t) h = Returns TTerm h).
  { unfold type_of, bind, load, ret. by rewrite Ht. }
  assert (Hadd : Term.add (VRef t) [a] h
                 = Returns (VRef (length h + 1))
                     (h ++ [OTuple [VRef t; a];
                            OExpression (Some (length h + 2));
                            OList [VRef t; a]])).
  { do 2 munfold. heap_simpl. reflexivity. }
  split; [|split].
  - unfold py_add, bind. rewrite Ha, Hty. by destruct ta.
  - unfold py_add, bind. rewrite Hty, Ha. exact Hadd.
  - unfold expression_terms. heap_simpl. reflexivity.
Qed.

(** X17.  [+] does not treat a Term and an Expression alike on both
    sides: [t + e] is the two-element Expression holding [t] and the
    Expression [e] itself, nested, while [e + t] holds the terms of [e]
    followed by [t]. *)
Theorem X17_term_plus_expression_nests (h : heap) (t e terms : loc)
    (d : option loc) (c : option Z) (ts : list val) :
  h !! t = Some (OTerm d c) ->
  h !! e = Some (OExpression (Some terms)) ->
  h !! terms = Some (OList ts) ->
  (exists r h', py_add (VRef t) (VRef e) h = Returns r h' /\
                expression_terms h' r = Some [VRef t; VRef e]) /\
  (exists r h', py_add (VRef e) (VRef t) h = Returns r h' /\
                expression_terms h' r = Some (ts ++ [VRef t])).
Proof.
  intros Ht He Hterms.
  assert (Hty : type_of (VRef t) h = Returns TTerm h).
  { unfold type_of, bind, load, ret. by rewrite Ht. }
  assert (Hte : type_of (VRef e) h = Returns TExpression h).
  { unfold type_of, bind, load, ret. by rewrite He. }
  split.
  - eexists _, _. split.
    + unfold py_add, bind. rewrite Hty, Hte.
      unfold Term.__add__. do 2 munfold. heap_simpl. reflexivity.
    + unfold expression_terms. heap_simpl. reflexivity.
  - eexists _, _. split.
    + unfold py_add, bind. rewrite Hte, Hty.
      unfold Expression.__add__.
      apply (add_flattens h e terms ts [VRef t] [VRef t] He Hterms).
      cbn. by rewrite Ht.
    + unfold expression_terms. heap_simpl. reflexivity.
Qed.

Lemma add_loop_app (result : val) (xs ys : list val) (h : heap) :
  Expression.add_loop result (xs ++ ys) h
  = (let* _ := Expression.add_loop result xs in
     Expression.add_loop result ys) h.
Proof.
  revert h. induction xs as [|x xs IH]; intros h; [done|].
  cbn [app Expression.add_loop]. unfold bind in IH |- *.
  destruct (Expression.add_step result x h) as [[] h1|e h1|]; [|done..].
  apply IH.
Qed.

Lemma add_rejects (h : heap) (e terms : loc) (ts pre flat post : list val)
    (a : val) :
  h !! e = Some (OExpression (Some terms)) ->
  h !! terms = Some (OList ts) ->
  flattened h pre = Some flat ->
  raw_operand h a = true ->
  Expression.add (VRef e) (pre ++ a :: post) h
  = Raises AttributeError
      (h ++ [OExpression (Some (length h + 1)); OList (ts ++ flat)]).
Proof.
  intros He Hterms Hflat Hraw.
  unfold Expression.add, bind at 1 2. munfold. heap_simpl.
  rewrite add_loop_app. unfold bind at 1.
  rewrite (add_loop_spec _ _ _ _ Hflat).
  cbn [Expression.add_loop]. unfold bind.
  assert (Hstep : Expression.add_step (VRef (length h)) a
            (h ++ [OExpression (Some (length h + 1)); OList (ts ++ flat)])
          = Raises AttributeError
              (h ++ [OExpression (Some (length h + 1)); OList (ts ++ flat)])).
  { unfold raw_operand in Hraw. destruct a as [| | | |l].
    1-4: do 2 munfold; heap_simpl; reflexivity.
    destruct (h !! l) as [[| | | |]|] eqn:Hl; try discriminate;
      do 2 munfold; heap_simpl; reflexivity. }
  by rewrite Hstep.
Qed.

(** X18.  [Expression.add] raises [AttributeError] at the first operand
    that is neither a Term nor an Expression (it has no [terms]); the
    operands before it have been added to the new list by then, no
    object that existed is modified, and no result is returned. *)
Theorem X18_add_rejects_raw_operand (h : heap) (e terms : loc)
    (ts pre flat post : list val) (a : val) :
  h !! e = Some (OExpression (Some terms)) ->
  h !! terms = Some (OList ts) ->
  flattened h pre = Some flat ->
  raw_operand h a = true ->
  Expression.add (VRef e) (pre ++ a :: post) h
  = Raises AttributeError
      (h ++ [OExpression (Some (length h + 1)); OList (ts ++ flat)]).
Proof. apply add_rejects. Qed.

Lemma raw_operand_type (h : heap) (a : val) :
  raw_operand h a = true ->
  exists ta, type_of a h = Returns ta h /\ ta <> TTerm /\ ta <> TExpression.
Proof.
  unfold raw_operand, type_of, bind, load, ret.
  destruct a as [| | | |l]; try (by eexists).
  destruct (h !! l) as [[| | | |]|]; try discriminate; by eexists.
Qed.

(** X19.  Hence an Expression cannot be added to a raw value with [+], on
    either side: [e + a] and [a + e], for [a] an int, a string, [None],
    a float, a list, a tuple or a dictionary, both raise
    [AttributeError]. *)
Theorem X19_expression_plus_raw_raises (h : heap) (e terms : loc)
    (ts : list val) (a : val) :
  h !! e = Some (OExpression (Some terms)) ->
  h !! terms = Some (OList ts) ->
  raw_operand h a = true ->
  let h' := h ++ [OExpression (Some (length h + 1)); OList ts] in
  py_add (VRef e) a h = Raises AttributeError h' /\
  py_add a (VRef e) h = Raises AttributeError h'.
Proof.
  intros He Hterms Hraw h'. subst h'.
  destruct (raw_operand_type _ _ Hraw) as (ta & Ha & Hta & Hta').
  assert (Hte : type_of (VRef e) h = Returns TExpression h).
  { unfold type_of, bind, load, ret. by rewrite He. }
  pose proof (add_rejects h e terms ts [] [] [] a He Hterms eq_refl Hraw)
    as Hadd.
  rewrite app_nil_r in Hadd. cbn [app] in Hadd.
  split.
  - unfold py_add, bind. rewrite Hte, Ha. exact Hadd.
  - unfold py_add, bind. rewrite Ha, Hte. by destruct ta.
Qed.

(** Witness for X15: a list holding [Term('x')], later replaced by the
    empty list. *)
Lemma X15_expression_copies_its_terms_witness :
  let h := store_with_x ++ [OList [VRef 0]] in
  first_Expression__init__ [VRef 2] h
  = Returns (VRef 3) (h ++ [OExpression (Some 2)]) /\
  Expression.__init__ [VRef 2] h
  = Returns (VRef 3) (h ++ [OExpression (Some 4); OList [VRef 0]]) /\
  forall items',
    expression_terms (<[2 := OList items']> (h ++ [OExpression (Some 2)]))
      (VRef 3) = Some items' /\
    expression_terms
      (<[2 := OList items']> (h ++ [OExpression (Some 4); OList [VRef 0]]))
      (VRef 3) = Some [VRef 0].
Proof.
  exact (X15_expression_copies_its_terms (store_with_x ++ [OList [VRef 0]]) 2
           [VRef 0] eq_refl).
Defined.

(** Witness for X16: [5 + Term('x')] holds [x] first and 5 second. *)
Lemma X16_reflected_sum_puts_term_first_witness :
  exists h',
    py_add (VInt 5) (VRef 0) store_with_x = Returns (VRef 3) h' /\
    py_add (VRef 0) (VInt 5) store_with_x = Returns (VRef 3) h' /\
    expression_terms h' (VRef 3) = Some [VRef 0; VInt 5].
Proof.
  eexists.
  refine (X16_reflected_sum_puts_term_first store_with_x 0 (Some 1) (Some 1%Z)
            (VInt 5) TInt eq_refl eq_refl _ _); discriminate.
Defined.

(** Witness for X17: [Term(2)] and the Expression [x + y]. *)
Lemma X17_term_plus_expression_nests_witness :
  (exists r h', py_add (VRef 6) (VRef 4) store_with_sum = Returns r h' /\
                expression_terms h' r = Some [VRef 6; VRef 4]) /\
  (exists r h', py_add (VRef 4) (VRef 6) store_with_sum = Returns r h' /\
                expression_terms h' r = Some ([VRef 0; VRef 2] ++ [VRef 6])).
Proof.
  exact (X17_term_plus_expression_nests store_with_sum 6 4 5 (Some 7)
           (Some 2%Z) [VRef 0; VRef 2] eq_refl eq_refl eq_refl).
Defined.

(** Witness for X18: [(x + y).add(Term(2), 'z')]. *)
Lemma X18_add_rejects_raw_operand_witness :
  Expression.add (VRef 4) ([VRef 6] ++ [VStr "z"]) store_with_sum
  = Raises AttributeError
      (store_with_sum
       ++ [OExpression (Some 9); OList ([VRef 0; VRef 2] ++ [VRef 6])]).
Proof.
  exact (X18_add_rejects_raw_operand store_with_sum 4 5 [VRef 0; VRef 2]
           [VRef 6] [VRef 6] [] (VStr "z") eq_refl eq_refl eq_refl eq_refl).
Defined.

(** Witness for X19: [(x + y) + 'z'] and ['z' + (x + y)]. *)
Lemma X19_expression_plus_raw_raises_witness :
  py_add (VRef 4) (VStr "z") store_with_sum
  = Raises AttributeError
      (store_with_sum ++ [OExpression (Some 9); OList [VRef 0; VRef 2]]) /\
  py_add (VStr "z") (VRef 4) store_with_sum
  = Raises AttributeError
      (store_with_sum ++ [OExpression (Some 9); OList [VRef 0; VRef 2]]).
Proof.
  exact (X19_expression_plus_raw_raises store_with_sum 4 5 [VRef 0; VRef 2]
           (VStr "z") eq_refl eq_refl eq_refl).
Defined.

End MoreExpressions.

Section MoreRendering.

Lemma term_str_run (h : heap) (t : val) (m : dict) (c : Z) :
  term_view h t = Some (m, c) ->
  Term.__str__ t h = Returns (render_term m c) h.
Proof.
  unfold term_view. destruct t as [| | | |l]; try done.
  destruct (h !! l) as [[| | |[d|] [c'|]|]|] eqn:Hl; try done.
  destruct (h !! d) as [[| |m'| |]|] eqn:Hd; try done.
  intros [= <- <-]. munfold. heap_simpl. unfold render_term.
  change (map _ m') with
    (map (fun sp => Term.symbol_string (fst sp) (snd sp)) m').
  destruct (String.eqb _ ""); heap_simpl; [done|].
  by destruct (c' =? 1)%Z.
Qed.

Lemma py_str_run (h : heap) (v : val) (s : string) :
  item_string h v = Some s -> py_str v h = Returns s h.
Proof.
  unfold item_string, py_str. destruct v as [|z|f|s'|l]; try (by intros [= <-]).
  destruct (term_view h (VRef l)) as [[m c]|] eqn:Hv; [|done].
  intros [= <-]. rewrite <- (term_str_run _ _ _ _ Hv).
  unfold term_view in Hv. unfold bind, load.
  destruct (h !! l) as [[| | | |]|]; done.
Qed.

Lemma str_all_run (h : heap) (items : list val) :
  forall ss, item_strings h items = Some ss -> str_all items h = Returns ss h.
Proof.
  induction items as [|x rest IH]; intros ss; cbn.
  - by intros [= <-].
  - destruct (item_string h x) as [s|] eqn:Hx; [|done].
    destruct (item_strings h rest) as [ss'|] eqn:Hrest; [|done].
    intros [= <-]. unfold bind. by rewrite (py_str_run _ _ _ Hx), (IH _ eq_refl).
Qed.

Lemma expression_str_run (h : heap) (e : val) (items : list val)
    (ss : list string) :
  expression_terms h e = Some items ->
  item_strings h items = Some ss ->
  Expression__str__ e h = Returns (String.concat "+" ss) h.
Proof.
  unfold expression_terms. destruct e as [| | | |l]; try done.
  destruct (h !! l) as [[| | | |[t|]]|] eqn:Hl; try done.
  destruct (h !! t) as [[items'| | | |]|] eqn:Ht; try done.
  intros [= <-] Hss. unfold Expression__str__. munfold. heap_simpl.
  by rewrite (str_all_run _ _ _ Hss).
Qed.

Lemma term_view_grows (h news : heap) (v : val) (r : dict * Z) :
  term_view h v = Some r -> term_view (h ++ news) v = Some r.
Proof.
  unfold term_view. destruct v as [| | | |l]; try done.
  destruct (h !! l) as [[| | |[d|] [c|]|]|] eqn:Hl; try done.
  rewrite (lookup_app_l_Some _ _ _ _ Hl).
  destruct (h !! d) as [[| | | |]|] eqn:Hd; try done.
  by rewrite (lookup_app_l_Some _ _ _ _ Hd).
Qed.

Lemma item_strings_grows (h news : heap) (items : list val) :
  forall ss, item_strings h items = Some ss ->
             item_strings (h ++ news) items = Some ss.
Proof.
  induction items as [|x rest IH]; intros ss; cbn; [done|].
  destruct (item_string h x) as [s|] eqn:Hx; [|done].
  destruct (item_strings h rest) as [ss'|] eqn:Hrest; [|done].
  intros [= <-]. rewrite (IH _ eq_refl).
  assert (item_string (h ++ news) x = Some s) as ->; [|done].
  unfold item_string in *. destruct x as [| | | |l]; try done.
  destruct (term_view h (VRef l)) as [r|] eqn:Hv; [|done].
  by rewrite (term_view_grows _ _ _ _ Hv).
Qed.

Lemma item_strings_app (h : heap) (xs ys : list val) :
  forall sx sy,
    item_strings h xs = Some sx -> item_strings h ys = Some sy ->
    item_strings h (xs ++ ys) = Some (sx ++ sy).
Proof.
  induction xs as [|x rest IH]; intros sx sy; cbn.
  - by intros [= <-].
  - destruct (item_string h x) as [s|]; [|done].
    destruct (item_strings h rest) as [ss'|] eqn:Hrest; [|done].
    intros [= <-] Hy. by rewrite (IH _ _ eq_refl Hy).
Qed.

Lemma append_assoc (a b c : string) : (a +:+ b) +:+ c = a +:+ (b +:+ c).
Proof.
  induction a as [|x a IH]; [done|].
  change (String x ((a +:+ b) +:+ c) = String x (a +:+ (b +:+ c))).
  by rewrite IH.
Qed.

Lemma concat_app (sep : string) (xs ys : list string) :
  xs <> [] -> ys <> [] ->
  String.concat sep (xs ++ ys)
  = String.concat sep xs +:+ sep +:+ String.concat sep ys.
Proof.
  intros Hx Hy. induction xs as [|x [|x' xs] IH]; [done| |].
  - destruct ys; [done|]. reflexivity.
  - change (String.concat sep ((x :: x' :: xs) ++ ys))
      with (x +:+ sep +:+ String.concat sep ((x' :: xs) ++ ys)).
    rewrite IH by done.
    change (String.concat sep (x :: x' :: xs))
      with (x +:+ sep +:+ String.concat sep (x' :: xs)).
    by rewrite !append_assoc.
Qed.

Lemma item_strings_nonempty (h : heap) (items : list val) (ss : list string) :
  item_strings h items = Some ss -> items <> [] -> ss <> [].
Proof.
  destruct items as [|x rest]; [done|]. cbn.
  destruct (item_string h x), (item_strings h rest); try done.
  by intros [= <-].
Qed.





End MoreRendering.

(** * Iterators, generators and decorators *)

Section Iterators.

Lemma drain_fib (n : nat) : forall (p c : Z) (fuel : nat),
  n < fuel ->
  exists l,
    drain fib_next fuel (fib_iterator (Z.of_nat n) p c) = Some l /\
    length l = n /\
    (forall x, l !! 0 = Some x -> x = (p + c)%Z) /\
    (forall x, l !! 1 = Some x -> x = (c + (p + c))%Z) /\
    (forall i x y z, l !! i = Some x -> l !! (i + 1) = Some y ->
                     l !! (i + 2) = Some z -> z = (x + y)%Z).
Proof.
  induction n as [|n IH]; intros p c fuel Hfuel.
  - destruct fuel as [|fuel]; [lia|]. exists []. cbn. repeat split; try done.
  - destruct fuel as [|fuel]; [lia|].
    destruct (IH c (p + c)%Z fuel ltac:(lia)) as (l & Hl & Hlen & H0 & H1 & Hrec).
    exists ((p + c)%Z :: l).
    assert (Hstep : fib_next (fib_iterator (Z.of_nat (S n)) p c)
                    = Yielded (p + c)%Z (fib_iterator (Z.of_nat n) c (p + c)%Z)).
    { unfold fib_next, fib_iterator. cbn [limit previous current].
      replace (Z.of_nat (S n) - 1)%Z with (Z.of_nat n) by lia.
      destruct (Z.ltb_spec (Z.of_nat n) 0); [lia|done]. }
    split; [|split; [|split; [|split]]].
    + cbn [drain]. by rewrite Hstep, Hl.
    + cbn. by rewrite Hlen.
    + by intros x [= <-].
    + intros x Hx. cbn in Hx. by apply H0.
    + intros [|i] x y z Hx Hy Hz; cbn in Hx, Hy, Hz.
      * injection Hx as <-. rewrite (H0 _ Hy) in *. 
        replace (1) with (0 + 1) in Hz by done. rewrite (H1 _ Hz). lia.
      * eauto.
Qed.

(** X22.  Listing [fib_iterator(limit, seed1, seed2)] yields exactly
    [limit] values (none when the limit is zero or negative): the first
    is [seed1 + seed2], the second [seed2] plus the first, and each later
    one the sum of the two before it. *)
Theorem X22_fib_iterator_values (lim p c : Z) (fuel : nat) :
  Z.to_nat lim < fuel ->
  exists l,
    drain fib_next fuel (fib_iterator lim p c) = Some l /\
    length l = Z.to_nat lim /\
    (forall x, l !! 0 = Some x -> x = (p + c)%Z) /\
    (forall x, l !! 1 = Some x -> x = (c + (p + c))%Z) /\
    (forall i x y z, l !! i = Some x -> l !! (i + 1) = Some y ->
                     l !! (i + 2) = Some z -> z = (x + y)%Z).
Proof.
  intros Hfuel. destruct (Z.le_gt_cases lim 0) as [Hneg|Hpos].
  - exists []. replace (Z.to_nat lim) with 0 by lia.
    destruct fuel as [|fuel]; [lia|]. cbn [drain].
    unfold fib_next, fib_iterator. cbn [limit previous current].
    destruct (Z.ltb_spec (lim - 1) 0); [|lia]. repeat split; done.
  - pose proof (drain_fib (Z.to_nat lim) p c fuel Hfuel) as H.
    by rewrite Z2Nat.id in H by lia.
Qed.

(** X23.  Once [__next__] of a [fib_iterator] has raised
    [StopIteration] its limit is negative, and the iterator yields
    nothing more, however often it is asked. *)
Theorem X23_fib_iterator_stays_exhausted (s s' : fib_state) (fuel : nat) :
  fib_next s = Stopped s' ->
  0 < fuel ->
  (limit s' < 0)%Z /\ drain fib_next fuel s' = Some [].
Proof.
  unfold fib_next. cbn. destruct (Z.ltb_spec (limit s - 1) 0); [|done].
  intros [= <-] Hfuel. split; [done|].
  destruct fuel as [|fuel]; [lia|]. cbn [drain]. unfold fib_next. cbn.
  by destruct (Z.ltb_spec (limit s - 1 - 1) 0); [|lia].
Qed.

Lemma drain_related (fuel : nat) : forall lim c p : Z,
  drain yield_fibs_next fuel
    {| g_limit := lim; g_current := c; g_previous := p |}
  = drain fib_next fuel {| limit := lim; previous := p; current := c |}.
Proof.
  induction fuel as [|fuel IH]; intros lim c p; [done|].
  cbn [drain]. unfold yield_fibs_next, fib_next.
  cbn [g_limit g_current g_previous limit previous current].
  destruct (Z.gtb_spec lim 0), (Z.ltb_spec (lim - 1) 0); try lia; [|done].
  rewrite IH. by replace (p + c)%Z with (c + p)%Z by lia.
Qed.

(** X24.  The generator [yield_fibs] assigns its seeds the other way
    round: [yield_fibs(limit, seed1, seed2)] yields what
    [fib_iterator(limit, seed2, seed1)] yields, so the two agree for
    equal seeds, the default. *)
Theorem X24_yield_fibs_swaps_seeds (lim seed1 seed2 : Z) (fuel : nat) :
  drain yield_fibs_next fuel (yield_fibs lim seed1 seed2)
  = drain fib_next fuel (fib_iterator lim seed2 seed1).
Proof. apply drain_related. Qed.

Lemma repeated_loop_spec {A} (func : A -> A) (n : nat) :
  forall (fuel : nat) (x : A),
    n < fuel ->
    repeated_loop func fuel (Z.of_nat n) x = Some (Nat.iter n func x).
Proof.
  induction n as [|n IH]; intros fuel x Hfuel.
  - destruct fuel; [lia|]. done.
  - destruct fuel as [|fuel]; [lia|]. cbn [repeated_loop].
    destruct (Z.gtb_spec (Z.of_nat (S n)) 0); [|lia].
    replace (Z.of_nat (S n) - 1)%Z with (Z.of_nat n) by lia.
    rewrite IH by lia. by rewrite Nat.iter_succ_r.
Qed.

Lemma repeater_spec {A} (func : A -> A) (count : Z) (fuel : nat) (x : A) :
  Z.to_nat count < fuel ->
  repeater count func fuel x = Some (Nat.iter (Z.to_nat count) func x).
Proof.
  intros Hfuel. unfold repeater. destruct (Z.le_gt_cases count 0) as [Hneg|Hpos].
  - replace (Z.to_nat count) with 0 by lia. destruct fuel; [lia|].
    cbn. destruct (Z.gtb_spec count 0); [lia|done].
  - pose proof (repeated_loop_spec func (Z.to_nat count) fuel x Hfuel) as H.
    by rewrite Z2Nat.id in H by lia.
Qed.

(** X25.  [repeater(count)(func)] applies [func] [count] times to its
    argument, and not at all when [count] is zero or negative: it then
    returns its argument. *)
Theorem X25_repeater_iterates {A} (func : A -> A) (count : Z) (fuel : nat)
    (x : A) :
  Z.to_nat count < fuel ->
  repeater count func fuel x = Some (Nat.iter (Z.to_nat count) func x) /\
  ((count <= 0)%Z -> repeater count func fuel x = Some x).
Proof.
  intros Hfuel. split; [by apply repeater_spec|].
  intros Hneg. rewrite repeater_spec by done.
  by replace (Z.to_nat count) with 0 by lia.
Qed.

(** X26.  Repeaters compose by multiplying their counts: for counts that
    are not negative, [repeater(m)(repeater(n)(func))] is
    [repeater(m * n)(func)]. *)
Theorem X26_repeaters_multiply {A} (func : A -> A) (m n : Z)
    (f1 f2 f3 : nat) (x : A) :
  (0 <= m)%Z -> (0 <= n)%Z ->
  Z.to_nat m < f1 -> Z.to_nat n < f2 -> Z.to_nat (m * n) < f3 ->
  exists inner : A -> A,
    (forall y, repeater n func f2 y = Some (inner y)) /\
    repeater m inner f1 x = repeater (m * n) func f3 x.
Proof.
  intros Hm Hn H1 H2 H3.
  exists (Nat.iter (Z.to_nat n) func). split.
  - intros y. by apply repeater_spec.
  - rewrite !repeater_spec by done. f_equal.
    rewrite Z2Nat.inj_mul by done.
    generalize (Z.to_nat m) (Z.to_nat n). clear. intros a b.
    induction a as [|a IH]; [done|].
    cbn [Nat.mul]. by rewrite Nat.iter_add, <- IH.
Qed.

(** Witness for X22: [fib_iterator(5)] of the lesson. *)
Lemma X22_fib_iterator_values_witness :
  exists l,
    drain fib_next 6 (fib_iterator 5 1 1) = Some l /\
    length l = Z.to_nat 5 /\
    (forall x, l !! 0 = Some x -> x = (1 + 1)%Z) /\
    (forall x, l !! 1 = Some x -> x = (1 + (1 + 1))%Z) /\
    (forall i x y z, l !! i = Some x -> l !! (i + 1) = Some y ->
                     l !! (i + 2) = Some z -> z = (x + y)%Z).
Proof. apply (X22_fib_iterator_values 5 1 1 6). cbn. lia. Defined.

(** Witness for X23: [fib_iterator(0)], exhausted by its first [next]. *)
Lemma X23_fib_iterator_stays_exhausted_witness :
  (limit {| limit := -1; previous := 1; current := 2 |} < 0)%Z /\
  drain fib_next 3 {| limit := -1; previous := 1; current := 2 |} = Some [].
Proof.
  apply (X23_fib_iterator_stays_exhausted (fib_iterator 0 1 1));
    [reflexivity | lia].
Defined.

(** Witness for X25: the decorated [hello] of the lesson,
    [repeater(3)(hello)("Cleese")]. *)
Lemma X25_repeater_iterates_witness :
  repeater 3 hello 4 "Cleese" = Some "Hello, Hello, Hello, Cleese" /\
  ((3 <= 0)%Z -> repeater 3 hello 4 "Cleese" = Some "Cleese").
Proof. apply (X25_repeater_iterates hello 3 4 "Cleese"). cbn. lia. Defined.

(** Witness for X26: twice three times [hello]. *)
Lemma X26_repeaters_multiply_witness :
  exists inner : string -> string,
    (forall y, repeater 3 hello 4 y = Some (inner y)) /\
    repeater 2 inner 3 "Cleese" = repeater (2 * 3) hello 7 "Cleese".
Proof.
  apply (X26_repeaters_multiply hello 2 3 3 4 7 "Cleese"); cbn; lia.
Defined.

End Iterators.
